(** * SafeScale cluster lifecycle: a shallow embedding of the controller

    The development follows [lib/server/resources/operations/cluster.go],
    the cluster task file (taskCreateMaster, taskCreateNode, ...) and
    [lib/server/listeners/cluster.go].  Metadata is threaded explicitly;
    provider, SSH and flavor code, which the controller only calls, enter as
    records of answers (oracles).  The cluster, the task and the hosts handed
    to an operation are valid instances: the [IsNull] guards that open every
    method are not taken, and neither are the type assertions on property
    payloads, which the typed property record cannot fail. *)

From Stdlib Require Import ZArith List String DecimalString Bool Lia Sorted.
Import ListNotations.
Open Scope string_scope.
Open Scope list_scope.
Open Scope Z_scope.

(** ** Errors ([lib/utils/fail]) *)

Module fail.

(** The error kinds the controller distinguishes with type switches. *)
Inductive Kind : Type :=
| ErrInvalidInstance
| ErrInvalidParameter
| ErrInvalidRequest
| ErrNotFound
| ErrNotAvailable
| ErrNotImplemented
| ErrInconsistent
| ErrTimeout
| ErrAborted
| ErrorList
| ErrGeneric.

#[local] Set Warnings "-register-all".

(** An error carries its kind, a message and the consequences attached to
    it while it was handled. *)
Inductive Error : Type :=
| mkError (kind : Kind) (msg : string) (consequences : list Error).

Definition kind (e : Error) : Kind := let 'mkError k _ _ := e in k.
Definition msg (e : Error) : string := let 'mkError _ m _ := e in m.
Definition consequences (e : Error) : list Error :=
  let 'mkError _ _ c := e in c.

Definition NewError (m : string) : Error := mkError ErrGeneric m [].
Definition InvalidParameterError (what why : string) : Error :=
  mkError ErrInvalidParameter (what ++ ": " ++ why)%string [].
Definition InvalidRequestError (m : string) : Error :=
  mkError ErrInvalidRequest m [].
Definition NotFoundError (m : string) : Error := mkError ErrNotFound m [].
Definition NotAvailableError (m : string) : Error :=
  mkError ErrNotAvailable m [].
Definition NotImplementedError (m : string) : Error :=
  mkError ErrNotImplemented m [].
Definition NewErrorList (errs : list Error) : Error :=
  mkError ErrorList "" errs.

(** [xerr.AddConsequence(derr)] *)
Definition AddConsequence (e derr : Error) : Error :=
  let 'mkError k m c := e in mkError k m (c ++ [derr]).

(** [fail.Wrap(xerr, msg)]: same kind and consequences, message prefixed. *)
Definition Wrap (e : Error) (m : string) : Error :=
  let 'mkError k m0 c := e in mkError k (m ++ ": " ++ m0)%string c.

Definition isNotFound (e : Error) : bool :=
  match kind e with ErrNotFound => true | _ => false end.

End fail.

Import fail.

(** A call returns a value, returns an error, or panics (nil function call,
    slice bounds or index out of range). *)
Inductive outcome (A : Type) : Type :=
| Ok (a : A)
| Failed (e : Error)
| Panic.

Arguments Ok {A} a.
Arguments Failed {A} e.
Arguments Panic {A}.

(** ** Go integers and slices *)

(** [x++] on a [uint] *)
Definition uint_incr (x : Z) : Z := (x + 1) mod 2 ^ 64.

(** [x - y] on [uint] *)
Definition uint_sub (x y : Z) : Z := (x - y) mod 2 ^ 64.

(** [x++] on an [int] *)
Definition int_incr (x : Z) : Z := (x + 1 + 2 ^ 63) mod 2 ^ 64 - 2 ^ 63.

(** [uint(len(s))] *)
Definition len {A} (s : list A) : Z := Z.of_nat (List.length s).

(** [s[i:]]: panics unless [0 <= i <= len(s)] *)
Definition slice_from {A} (s : list A) (i : Z) : outcome (list A) :=
  if (0 <=? i) && (i <=? len s) then Ok (skipn (Z.to_nat i) s) else Panic.

(** [s[:j]]: panics unless [0 <= j <= len(s)] (the capacity of a slice is an
    [int], below [2^63]) *)
Definition slice_to {A} (s : list A) (j : Z) : outcome (list A) :=
  if (0 <=? j) && (j <=? len s) then Ok (firstn (Z.to_nat j) s) else Panic.

(** [s[i]]: panics unless [0 <= i < len(s)] *)
Definition index {A} (s : list A) (i : Z) : outcome A :=
  if 0 <=? i then
    match nth_error s (Z.to_nat i) with
    | Some a => Ok a
    | None => Panic
    end
  else Panic.

(** ** Cluster states ([enums/clusterstate]) *)

Module clusterstate.
Inductive Enum : Type :=
| Unknown | Creating | Nominal | Degraded
| Starting | Stopping | Stopped | Removed.

Definition eqb (a b : Enum) : bool :=
  match a, b with
  | Unknown, Unknown | Creating, Creating | Nominal, Nominal
  | Degraded, Degraded | Starting, Starting | Stopping, Stopping
  | Stopped, Stopped | Removed, Removed => true
  | _, _ => false
  end.

Definition String (s : Enum) : string :=
  match s with
  | Unknown => "Unknown" | Creating => "Creating" | Nominal => "Nominal"
  | Degraded => "Degraded" | Starting => "Starting"
  | Stopping => "Stopping" | Stopped => "Stopped" | Removed => "Removed"
  end.
End clusterstate.

(** ** Property payloads

    The payload types are declared in the [properties/v1], [v2] and [v3]
    packages; the records below carry the fields the controller reads or
    writes. *)

Module propertiesv1.
Record ClusterNode : Type := mkClusterNode {
  ID : string;
  Name : string;
  PublicIP : string;
  PrivateIP : string
}.

Record ClusterNodes : Type := mkClusterNodes {
  Masters : list ClusterNode;
  PrivateNodes : list ClusterNode;
  MasterLastIndex : Z;
  PrivateLastIndex : Z
}.

Definition newClusterNodes : ClusterNodes := mkClusterNodes [] [] 0 0.

Record ClusterNetwork : Type := mkClusterNetwork {
  NetworkID : string;
  CIDR : string;
  GatewayID : string;
  GatewayIP : string;
  PublicIP' : string
}.

Definition newClusterNetwork : ClusterNetwork :=
  mkClusterNetwork "" "" "" "" "".

Record ClusterState : Type := mkClusterState {
  State : clusterstate.Enum
}.

Definition newClusterState : ClusterState :=
  mkClusterState clusterstate.Unknown.
End propertiesv1.

Module propertiesv2.
Record ClusterNode : Type := mkClusterNode {
  ID : string;
  NumericalID : Z;
  Name : string;
  PublicIP : string;
  PrivateIP : string
}.

Record ClusterNodes : Type := mkClusterNodes {
  Masters : list ClusterNode;
  PrivateNodes : list ClusterNode;
  MasterLastIndex : Z;
  PrivateLastIndex : Z;
  GlobalLastIndex : Z
}.

Definition newClusterNodes : ClusterNodes := mkClusterNodes [] [] 0 0 0.

Record ClusterNetwork : Type := mkClusterNetwork {
  NetworkID : string;
  CIDR : string;
  GatewayID : string;
  GatewayIP : string;
  SecondaryGatewayID : string;
  SecondaryGatewayIP : string;
  DefaultRouteIP : string;
  PrimaryPublicIP : string;
  SecondaryPublicIP : string;
  EndpointIP : string;
  Domain : string
}.

Definition newClusterNetwork : ClusterNetwork :=
  mkClusterNetwork "" "" "" "" "" "" "" "" "" "" "".
End propertiesv2.

Module propertiesv3.
Record ClusterNetwork : Type := mkClusterNetwork {
  NetworkID : string;
  SubnetID : string;
  CIDR : string;
  GatewayID : string;
  GatewayIP : string;
  SecondaryGatewayID : string;
  SecondaryGatewayIP : string;
  DefaultRouteIP : string;
  PrimaryPublicIP : string;
  SecondaryPublicIP : string;
  EndpointIP : string;
  Domain : string
}.

Definition newClusterNetwork : ClusterNetwork :=
  mkClusterNetwork "" "" "" "" "" "" "" "" "" "" "" "".
End propertiesv3.

(** ** The property map ([serialize.JSONProperties])

    One optional slot per (tag, version) the controller touches. *)

Record JSONProperties : Type := mkProps {
  NodesV1 : option propertiesv1.ClusterNodes;
  NodesV2 : option propertiesv2.ClusterNodes;
  NetworkV1 : option propertiesv1.ClusterNetwork;
  NetworkV2 : option propertiesv2.ClusterNetwork;
  NetworkV3 : option propertiesv3.ClusterNetwork;
  StateV1 : option propertiesv1.ClusterState
}.

Definition noProps : JSONProperties :=
  mkProps None None None None None None.

Definition setNodesV2 (p : JSONProperties) (v : propertiesv2.ClusterNodes) :=
  mkProps (NodesV1 p) (Some v) (NetworkV1 p) (NetworkV2 p) (NetworkV3 p)
          (StateV1 p).
Definition setNetworkV3 (p : JSONProperties) (v : propertiesv3.ClusterNetwork) :=
  mkProps (NodesV1 p) (NodesV2 p) (NetworkV1 p) (NetworkV2 p) (Some v)
          (StateV1 p).
Definition setStateV1 (p : JSONProperties) (v : propertiesv1.ClusterState) :=
  mkProps (NodesV1 p) (NodesV2 p) (NetworkV1 p) (NetworkV2 p) (NetworkV3 p)
          (Some v).

(** [props.Lookup(tag)] *)
Definition Lookup {A} (slot : option A) : bool :=
  match slot with Some _ => true | None => false end.

(** Modelled from the spec: [props.Inspect] of the serialize package, which is
    not part of the sources at hand.  The viewer sees a clone of the payload;
    a tag that is not present yet is seen at the zero value of its type. *)
Definition Inspect {A} (slot : option A) (zero : A) : A :=
  match slot with Some v => v | None => zero end.

(** Modelled from the spec: [props.Alter] of the serialize package, which is
    not part of the sources at hand ("read-modify-write ...; on mutator error,
    no write occurs").  The mutator works on the payload ([zero] when the tag
    is not present yet); the payload it leaves is stored by [store] when it
    returns without error. *)
Definition Alter {A B} (slot : option A) (zero : A)
    (store : A -> JSONProperties) (mutator : A -> outcome (A * B))
    : outcome (JSONProperties * B) :=
  match mutator (Inspect slot zero) with
  | Ok (v, b) => Ok (store v, b)
  | Failed e => Failed e
  | Panic => Panic
  end.

(** ** Metadata upgrades done by LoadCluster *)

(** The body of one iteration of the two loops of
    [updateNodesPropertyIfNeeded]; [toMasters] tells which list receives the
    node. *)
Definition upgradeNode (toMasters : bool) (nodesV2 : propertiesv2.ClusterNodes)
    (i : propertiesv1.ClusterNode) : propertiesv2.ClusterNodes :=
  let g := uint_incr (propertiesv2.GlobalLastIndex nodesV2) in
  let node := propertiesv2.mkClusterNode
                (propertiesv1.ID i) g (propertiesv1.Name i)
                (propertiesv1.PublicIP i) (propertiesv1.PrivateIP i) in
  if toMasters then
    propertiesv2.mkClusterNodes
      (propertiesv2.Masters nodesV2 ++ [node])
      (propertiesv2.PrivateNodes nodesV2)
      (propertiesv2.MasterLastIndex nodesV2)
      (propertiesv2.PrivateLastIndex nodesV2) g
  else
    propertiesv2.mkClusterNodes
      (propertiesv2.Masters nodesV2)
      (propertiesv2.PrivateNodes nodesV2 ++ [node])
      (propertiesv2.MasterLastIndex nodesV2)
      (propertiesv2.PrivateLastIndex nodesV2) g.

(** The mutator passed to [props.Alter(NodesV2, ...)]. *)
Definition upgradeNodes (nodesV1 : propertiesv1.ClusterNodes)
    (nodesV2 : propertiesv2.ClusterNodes) : propertiesv2.ClusterNodes :=
  let n1 := fold_left (upgradeNode true) (propertiesv1.Masters nodesV1)
                      nodesV2 in
  let n2 := fold_left (upgradeNode false) (propertiesv1.PrivateNodes nodesV1)
                      n1 in
  propertiesv2.mkClusterNodes
    (propertiesv2.Masters n2) (propertiesv2.PrivateNodes n2)
    (propertiesv1.MasterLastIndex nodesV1)
    (propertiesv1.PrivateLastIndex nodesV1)
    (propertiesv2.GlobalLastIndex n2).

Definition updateNodesPropertyIfNeeded (props : JSONProperties)
    : outcome JSONProperties :=
  if Lookup (NodesV2 props) then Ok props
  else
    let nodesV1 := Inspect (NodesV1 props) propertiesv1.newClusterNodes in
    match Alter (NodesV2 props) propertiesv2.newClusterNodes
                (setNodesV2 props)
                (fun nodesV2 => Ok (upgradeNodes nodesV1 nodesV2, tt)) with
    | Ok (props', _) => Ok props'
    | Failed e => Failed e
    | Panic => Panic
    end.

(** [config] built from a NetworkV2 payload *)
Definition networkV2ToV3 (networkV2 : propertiesv2.ClusterNetwork)
    : propertiesv3.ClusterNetwork :=
  {| propertiesv3.NetworkID := "";
     propertiesv3.SubnetID := propertiesv2.NetworkID networkV2;
     propertiesv3.CIDR := propertiesv2.CIDR networkV2;
     propertiesv3.GatewayID := propertiesv2.GatewayID networkV2;
     propertiesv3.GatewayIP := propertiesv2.GatewayIP networkV2;
     propertiesv3.SecondaryGatewayID :=
       propertiesv2.SecondaryGatewayID networkV2;
     propertiesv3.SecondaryGatewayIP :=
       propertiesv2.SecondaryGatewayIP networkV2;
     propertiesv3.DefaultRouteIP := propertiesv2.DefaultRouteIP networkV2;
     propertiesv3.PrimaryPublicIP := propertiesv2.PrimaryPublicIP networkV2;
     propertiesv3.SecondaryPublicIP :=
       propertiesv2.SecondaryPublicIP networkV2;
     propertiesv3.EndpointIP := propertiesv2.EndpointIP networkV2;
     propertiesv3.Domain := propertiesv2.Domain networkV2 |}.

(** [config] built from a NetworkV1 payload; the fields the literal does not
    name keep their zero value. *)
Definition networkV1ToV3 (networkV1 : propertiesv1.ClusterNetwork)
    : propertiesv3.ClusterNetwork :=
  {| propertiesv3.NetworkID := "";
     propertiesv3.SubnetID := propertiesv1.NetworkID networkV1;
     propertiesv3.CIDR := propertiesv1.CIDR networkV1;
     propertiesv3.GatewayID := propertiesv1.GatewayID networkV1;
     propertiesv3.GatewayIP := propertiesv1.GatewayIP networkV1;
     propertiesv3.SecondaryGatewayID := "";
     propertiesv3.SecondaryGatewayIP := "";
     propertiesv3.DefaultRouteIP := propertiesv1.GatewayIP networkV1;
     propertiesv3.PrimaryPublicIP := "";
     propertiesv3.SecondaryPublicIP := "";
     propertiesv3.EndpointIP := propertiesv1.PublicIP' networkV1;
     propertiesv3.Domain := "" |}.

Definition updateNetworkPropertyIfNeeded (props : JSONProperties)
    : outcome JSONProperties :=
  if Lookup (NetworkV3 props) then Ok props
  else
    let config :=
      if Lookup (NetworkV2 props) then
        networkV2ToV3 (Inspect (NetworkV2 props) propertiesv2.newClusterNetwork)
      else
        networkV1ToV3 (Inspect (NetworkV1 props) propertiesv1.newClusterNetwork)
    in
    (* [update] is true on both branches *)
    match Alter (NetworkV3 props) propertiesv3.newClusterNetwork
                (setNetworkV3 props)
                (fun _ => Ok (config, tt)) with
    | Ok (props', _) => Ok props'
    | Failed e => Failed e
    | Panic => Panic
    end.

(** The legacy handling at the end of [LoadCluster]. *)
Definition LoadCluster_upgrade (props : JSONProperties)
    : outcome JSONProperties :=
  match updateNodesPropertyIfNeeded props with
  | Ok props1 => updateNetworkPropertyIfNeeded props1
  | Failed e => Failed e
  | Panic => Panic
  end.

(** ** The cluster aggregate *)

(** Modelled from the spec: [core.Alter], the read-modify-write of the
    metadata adapter, which is not part of the sources at hand ("on mutator
    error, no write occurs").  Concurrent calls on one cluster are serialized,
    so a call is one atomic step on the stored properties. *)
Definition core_Alter {B} (props : JSONProperties)
    (mutator : JSONProperties -> outcome (JSONProperties * B))
    : JSONProperties * outcome B :=
  match mutator props with
  | Ok (props', b) => (props', Ok b)
  | Failed e => (props, Failed e)
  | Panic => (props, Panic)
  end.

(** The view of a host the controller uses ([GetID], [GetName]). *)
Record Host : Type := mkHost {
  GetID : string;
  GetName : string
}.

(** The flavor hook table ([flavors.Makers]).  A hook is a nullable function
    value; the cluster it receives is seen through its properties. *)
Record Makers : Type := mkMakers {
  MinimumRequiredServers :
    option (JSONProperties -> (Z * Z * Z) * option Error);
  ConfigureGateway : option (JSONProperties -> option Error);
  ConfigureMaster : option (JSONProperties -> Z -> Host -> option Error);
  ConfigureNode : option (JSONProperties -> Z -> Host -> option Error);
  UnconfigureMaster : option (JSONProperties -> Host -> option Error);
  UnconfigureNode : option (JSONProperties -> Host -> Host -> option Error);
  JoinMasterToCluster : option (JSONProperties -> Host -> option Error);
  JoinNodeToCluster : option (JSONProperties -> Host -> option Error);
  LeaveNodeFromCluster :
    option (JSONProperties -> Host -> Host -> option Error);
  ConfigureCluster : option (JSONProperties -> option Error);
  GetState_hook : option (JSONProperties -> clusterstate.Enum * option Error)
}.

Definition noMakers : Makers :=
  mkMakers None None None None None None None None None None None.

(** Calling a function value: a nil one panics. *)
Definition invoke {F} (hook : option F) (call : F -> option Error)
    : outcome unit :=
  match hook with
  | None => Panic
  | Some f => match call f with None => Ok tt | Some e => Failed e end
  end.

(** The provider operations Start and Stop need ([iaas.Service]). *)
Record Service : Type := mkService {
  StartHost : string -> option Error;
  StopHost : string -> option Error
}.

(** Modelled from the spec: a task group of the concurrency package, which is
    not part of the sources at hand.  Every started task runs to completion;
    waiting for the group reports the failures of its members together. *)
Definition WaitGroup (results : list (option Error)) : option Error :=
  match flat_map (fun r => match r with Some e => [e] | None => [] end)
                 results with
  | [] => None
  | errs => Some (NewErrorList errs)
  end.

(** Modelled from the spec: [retry.WhileUnsuccessfulDelay5Seconds] of the
    retry package, which is not part of the sources at hand ("5-second poll,
    5-minute cap"): the action is tried again while it fails; when the tries
    are used up the result is a timeout. *)
Fixpoint WhileUnsuccessfulDelay5Seconds {S} (tries : nat)
    (action : S -> S * option Error) (s : S) : S * option Error :=
  match tries with
  | O => (s, Some (mkError ErrTimeout "timeout" []))
  | Datatypes.S n =>
      let '(s', r) := action s in
      match r with
      | None => (s', None)
      | Some _ => WhileUnsuccessfulDelay5Seconds n action s'
      end
  end.

(** Tries that fit in 5 minutes at one every 5 seconds. *)
Definition fiveMinutes : nat := 60.

Section Lifecycle.

Variable makers : Makers.
Variable service : Service.

(** The mutator that writes [stateV1.State = state]. *)
Definition setState (state : clusterstate.Enum) (props : JSONProperties)
    : outcome (JSONProperties * unit) :=
  Alter (StateV1 props) propertiesv1.newClusterState (setStateV1 props)
        (fun _ => Ok (propertiesv1.mkClusterState state, tt)).

(** [GetState]: asks the flavor and stores the answer in the State
    property. *)
Definition GetState (props : JSONProperties)
    : JSONProperties * outcome clusterstate.Enum :=
  let '(state, xerr) :=
    match GetState_hook makers with
    | Some hook => hook props
    | None =>
        (clusterstate.Unknown,
         Some (NotImplementedError
                 "cluster maker does not define 'ForceGetState'"))
    end in
  match xerr with
  | Some e => (props, Failed e)
  | None =>
      match core_Alter props (setState state) with
      | (props', Ok _) => (props', Ok state)
      | (props', Failed e) => (props', Failed e)
      | (props', Panic) => (props', Panic)
      end
  end.

(** The hosts and gateways Start and Stop work on, read inside their
    [Alter]. *)
Definition hostsOfCluster (props : JSONProperties)
    : list propertiesv2.ClusterNode * list propertiesv2.ClusterNode
      * string * string :=
  let nodesV2 := Inspect (NodesV2 props) propertiesv2.newClusterNodes in
  let masters := propertiesv2.Masters nodesV2 in
  let nodes := propertiesv2.PrivateNodes nodesV2 in
  if Lookup (NetworkV2 props) then
    let networkV2 :=
      Inspect (NetworkV2 props) propertiesv2.newClusterNetwork in
    (masters, nodes, propertiesv2.GatewayID networkV2,
     propertiesv2.SecondaryGatewayID networkV2)
  else
    let networkV1 :=
      Inspect (NetworkV1 props) propertiesv1.newClusterNetwork in
    (masters, nodes, propertiesv1.GatewayID networkV1, "").

Definition isEmpty (s : string) : bool :=
  match s with EmptyString => true | _ => false end.

(** One poll of the loop in Start. *)
Definition pollStarted (props : JSONProperties)
    : JSONProperties * option Error :=
  match GetState props with
  | (props', Ok state) =>
      match state with
      | clusterstate.Nominal | clusterstate.Degraded => (props', None)
      | _ => (props', Some (NewError
                              ("current state of cluster is '"
                               ++ clusterstate.String state ++ "'")%string))
      end
  | (props', Failed e) => (props', Some e)
  | (props', Panic) => (props', Some (NewError "panic"))
  end.

Definition Start (props : JSONProperties) : JSONProperties * outcome unit :=
  match GetState props with
  | (props, Failed e) => (props, Failed e)
  | (props, Panic) => (props, Panic)
  | (props, Ok prevState) =>
    match prevState with
    | clusterstate.Stopping | clusterstate.Stopped => (props, Ok tt)
    | clusterstate.Starting =>
        match WhileUnsuccessfulDelay5Seconds fiveMinutes pollStarted props with
        | (props, Some e) =>
            (props,
             Failed (match kind e with
                     | ErrTimeout =>
                         Wrap e "timeout waiting cluster to become started"
                     | _ => e
                     end))
        | (props, None) => (props, Ok tt)
        end
    | _ =>
      if negb (clusterstate.eqb prevState clusterstate.Stopped) then
        (props,
         Failed (NotAvailableError
                   ("failed to start cluster because of it's current state: "
                    ++ clusterstate.String prevState)%string))
      else
        (* First mark cluster to be in state Starting *)
        match core_Alter props (setState clusterstate.Starting) with
        | (props, Failed e) => (props, Failed e)
        | (props, Panic) => (props, Panic)
        | (props, Ok _) =>
          let '(masters, nodes, gatewayID, secondaryGatewayID) :=
            hostsOfCluster props in
          match core_Alter props (setState clusterstate.Starting) with
          | (props, Failed e) => (props, Failed e)
          | (props, Panic) => (props, Panic)
          | (props, Ok _) =>
            let ids :=
              [gatewayID]
              ++ (if isEmpty secondaryGatewayID then []
                  else [secondaryGatewayID])
              ++ map propertiesv2.ID masters
              ++ map propertiesv2.ID nodes in
            match WaitGroup (map (StartHost service) ids) with
            | Some e => (props, Failed e)
            | None =>
                match core_Alter props (setState clusterstate.Nominal) with
                | (props, Ok _) => (props, Ok tt)
                | (props, Failed e) => (props, Failed e)
                | (props, Panic) => (props, Panic)
                end
            end
          end
        end
    end
  end.




End Lifecycle.


(** ** Node workers (the cluster task file) *)

Module clusternodetype.
Inductive Enum : Type := Gateway | Master | Node.
End clusternodetype.

(** What an operation can change: the cluster metadata and the hosts that
    exist at the provider (by ID). *)
Record World : Type := mkWorld {
  metadata : JSONProperties;
  provider : list string
}.

(** Operations thread the world and stop at the first error or panic. *)
Definition Op (A : Type) : Type := World -> World * outcome A.

Definition ret {A} (a : A) : Op A := fun w => (w, Ok a).

Definition raise {A} (e : Error) : Op A := fun w => (w, Failed e).

Definition bind {A B} (c : Op A) (k : A -> Op B) : Op B :=
  fun w =>
    match c w with
    | (w', Ok a) => k a w'
    | (w', Failed e) => (w', Failed e)
    | (w', Panic) => (w', Panic)
    end.

Notation "x <- c ;; k" := (bind c (fun x => k))
  (at level 61, c at next level, right associativity).
Notation "c ;;; k" := (bind c (fun _ => k))
  (at level 61, right associativity).

(** The answer of a collaborator that leaves the world as it is. *)
Definition answer (r : option Error) : Op unit :=
  fun w => match r with None => (w, Ok tt) | Some e => (w, Failed e) end.

Definition lift {A} (r : outcome A) : Op A := fun w => (w, r).

(** [defer fail.OnPanic(&xerr)]: a panic becomes the error returned. *)
Definition OnPanic {A} (c : Op A) : Op A :=
  fun w =>
    match c w with
    | (w', Panic) => (w', Failed (NewError "runtime panic occurred"))
    | r => r
    end.

(** [c.Alter] on the metadata of the world. *)
Definition c_Alter {B}
    (mutator : JSONProperties -> outcome (JSONProperties * B)) : Op B :=
  fun w =>
    let '(p, r) := core_Alter (metadata w) mutator in
    (mkWorld p (provider w), r).

(** [props.Inspect(task, clusterproperty.NodesV2, ...)] as the mutator of a
    [c.Alter]: the properties are left as they are. *)
Definition inspectNodesV2 {B} (f : propertiesv2.ClusterNodes -> outcome B)
    (props : JSONProperties) : outcome (JSONProperties * B) :=
  match f (Inspect (NodesV2 props) propertiesv2.newClusterNodes) with
  | Ok b => Ok (props, b)
  | Failed e => Failed e
  | Panic => Panic
  end.

(** [props.Alter(task, clusterproperty.NodesV2, ...)] *)
Definition alterNodesV2 {B}
    (f : propertiesv2.ClusterNodes -> outcome (propertiesv2.ClusterNodes * B))
    (props : JSONProperties) : outcome (JSONProperties * B) :=
  Alter (NodesV2 props) propertiesv2.newClusterNodes (setNodesV2 props) f.

(** The answers of the host and subnet facades and of the SSH agent. *)
Record Facade : Type := mkFacade {
  LoadSubnet : option Error;
  subnet_Inspect : option Error;
  GetDefaultRouteIP : option Error;
  NewHost : option Error;
  Create : string -> outcome Host;
  GetPublicIP : Host -> outcome string;
  GetPrivateIP : Host -> outcome string;
  Delete : Host -> option Error;
  LoadHost : string -> outcome Host;
  WaitSSHReady : Host -> option Error;
  installDocker : Host -> option Error;
  installProxyCacheClient : Host -> option Error;
  installNodeRequirements : clusternodetype.Enum -> Host -> option Error;
  installReverseProxy : option Error;
  installRemoteDesktop : option Error
}.

Definition itoa (i : Z) : string := NilZero.string_of_int (Z.to_int i).

Definition newline : string := String (Ascii.ascii_of_nat 10) "".

Definition setPrivateNodes (n : propertiesv2.ClusterNodes)
    (l : list propertiesv2.ClusterNode) : propertiesv2.ClusterNodes :=
  propertiesv2.mkClusterNodes
    (propertiesv2.Masters n) l (propertiesv2.MasterLastIndex n)
    (propertiesv2.PrivateLastIndex n) (propertiesv2.GlobalLastIndex n).

Definition setMasters (n : propertiesv2.ClusterNodes)
    (l : list propertiesv2.ClusterNode) : propertiesv2.ClusterNodes :=
  propertiesv2.mkClusterNodes
    l (propertiesv2.PrivateNodes n) (propertiesv2.MasterLastIndex n)
    (propertiesv2.PrivateLastIndex n) (propertiesv2.GlobalLastIndex n).

Definition setGlobalLastIndex (n : propertiesv2.ClusterNodes) (g : Z)
    : propertiesv2.ClusterNodes :=
  propertiesv2.mkClusterNodes
    (propertiesv2.Masters n) (propertiesv2.PrivateNodes n)
    (propertiesv2.MasterLastIndex n) (propertiesv2.PrivateLastIndex n) g.

(** The mutator of [buildHostname]. *)
Definition nextIndex (nodeType : clusternodetype.Enum)
    (nodesV2 : propertiesv2.ClusterNodes)
    : outcome (propertiesv2.ClusterNodes * Z) :=
  match nodeType with
  | clusternodetype.Node =>
      let i := int_incr (propertiesv2.PrivateLastIndex nodesV2) in
      Ok (propertiesv2.mkClusterNodes
            (propertiesv2.Masters nodesV2) (propertiesv2.PrivateNodes nodesV2)
            (propertiesv2.MasterLastIndex nodesV2) i
            (propertiesv2.GlobalLastIndex nodesV2), i)
  | clusternodetype.Master =>
      let i := int_incr (propertiesv2.MasterLastIndex nodesV2) in
      Ok (propertiesv2.mkClusterNodes
            (propertiesv2.Masters nodesV2) (propertiesv2.PrivateNodes nodesV2)
            i (propertiesv2.PrivateLastIndex nodesV2)
            (propertiesv2.GlobalLastIndex nodesV2), i)
  | clusternodetype.Gateway => Ok (nodesV2, 0)
  end.

Section Tasks.

Variable clusterName : string.
Variable makers : Makers.
Variable facade : Facade.

Definition buildHostname (core : string) (nodeType : clusternodetype.Enum)
    : Op string :=
  OnPanic
    (index <- c_Alter (alterNodesV2 (nextIndex nodeType)) ;;
     ret (clusterName ++ "-" ++ core ++ "-" ++ itoa index)%string).

(** [rh.GetPublicIP] as the two creation mutators use it: not having a public
    IP is not an error. *)
Definition publicIPOrNone (rh : Host) : outcome string :=
  match GetPublicIP facade rh with
  | Failed e => if isNotFound e then Ok "" else Failed e
  | r => r
  end.

(** The mutator of [taskCreateMaster] ([toMasters]) and of [taskCreateNode]:
    takes the next numerical ID and appends the node to its list. *)
Definition registerHost (toMasters : bool) (rh : Host)
    (nodesV2 : propertiesv2.ClusterNodes)
    : outcome (propertiesv2.ClusterNodes * propertiesv2.ClusterNode) :=
  let nodesV2 :=
    setGlobalLastIndex nodesV2
      (uint_incr (propertiesv2.GlobalLastIndex nodesV2)) in
  match publicIPOrNone rh with
  | Failed e => Failed e
  | Panic => Panic
  | Ok pubIP =>
      match GetPrivateIP facade rh with
      | Failed e => Failed e
      | Panic => Panic
      | Ok privIP =>
          let node :=
            propertiesv2.mkClusterNode
              (GetID rh) (propertiesv2.GlobalLastIndex nodesV2) (GetName rh)
              pubIP privIP in
          if toMasters then
            Ok (setMasters nodesV2 (propertiesv2.Masters nodesV2 ++ [node]),
                node)
          else
            Ok (setPrivateNodes nodesV2
                  (propertiesv2.PrivateNodes nodesV2 ++ [node]), node)
      end
  end.

(** [rh.Create]: on success the host exists at the provider. *)
Definition host_Create (resourceName : string) : Op Host :=
  fun w =>
    match Create facade resourceName with
    | Ok rh => (mkWorld (metadata w) (GetID rh :: provider w), Ok rh)
    | Failed e => (w, Failed e)
    | Panic => (w, Panic)
    end.

(** [rh.Delete]: on success the host is gone from the provider. *)
Definition host_Delete (rh : Host) : Op unit :=
  fun w =>
    match Delete facade rh with
    | None =>
        (mkWorld (metadata w) (remove string_dec (GetID rh) (provider w)),
         Ok tt)
    | Some e => (w, Failed e)
    end.

(** [taskCreateMaster] once [rh.Create] has returned the host. *)
Definition masterAfterCreate (NoKeep : bool) (rh : Host) : Op unit :=
  fun w =>
    match c_Alter (alterNodesV2 (registerHost true rh)) w with
    | (w, Failed xerr) =>
        if NoKeep then
          match host_Delete rh w with
          | (w, Failed derr) =>
              (w, Failed (Wrap (AddConsequence xerr derr)
                               "[%s] Host creation failed"))
          | (w, _) => (w, Failed (Wrap xerr "[%s] Host creation failed"))
          end
        else (w, Failed (Wrap xerr "[%s] Host creation failed"))
    | (w, Panic) => (w, Panic)
    | (w, Ok _) =>
        (answer (installProxyCacheClient facade rh) ;;;
         answer (installNodeRequirements facade clusternodetype.Master rh)) w
    end.

Definition taskCreateMaster (Index : Z) (NoKeep : bool) : Op unit :=
  OnPanic
    (if Index <? 1 then
       raise (InvalidParameterError "params.Index"
                                    "must be an integer greater than 0")
     else
       answer (LoadSubnet facade) ;;;
       answer (subnet_Inspect facade) ;;;
       name <- buildHostname "master" clusternodetype.Master ;;
       answer (NewHost facade) ;;;
       rh <- host_Create name ;;
       masterAfterCreate NoKeep rh).

(** The deferred function of [taskCreateNode]: when the task is leaving with
    an error and [NoKeep] is set, the host is deleted; a failure of that
    deletion is attached to the error. *)
Definition deleteOnFailure {A} (NoKeep : bool) (rh : Host) (body : Op A)
    : Op A :=
  fun w =>
    match body w with
    | (w, Failed xerr) =>
        if NoKeep then
          match host_Delete rh w with
          | (w, Failed derr) => (w, Failed (AddConsequence xerr derr))
          | (w, _) => (w, Failed xerr)
          end
        else (w, Failed xerr)
    | r => r
    end.

(** [taskCreateNode] once [rh.Create] has returned the host: the metadata
    update and the installations, under the deferred deletion. *)
Definition nodeAfterCreate (hostLabel : string) (NoKeep : bool) (rh : Host)
    : Op Host :=
  deleteOnFailure NoKeep rh
    (fun w =>
       match c_Alter (alterNodesV2 (registerHost false rh)) w with
       | (w, Failed e) =>
           (w, Failed (Wrap e ("[" ++ hostLabel ++ "] creation failed")))
       | (w, Panic) => (w, Panic)
       | (w, Ok _) =>
           (answer (installProxyCacheClient facade rh) ;;;
            answer (installNodeRequirements facade clusternodetype.Node rh)
            ;;; ret rh) w
       end).

Definition taskCreateNode (Index : Z) (NoKeep : bool) : Op Host :=
  OnPanic
    (if Index <? 1 then
       raise (InvalidParameterError "params.Index"
                                    "cannot be an integer less than 1")
     else
       answer (LoadSubnet facade) ;;;
       name <- buildHostname "node" clusternodetype.Node ;;
       answer (subnet_Inspect facade) ;;;
       answer (GetDefaultRouteIP facade) ;;;
       answer (NewHost facade) ;;;
       rh <- host_Create name ;;
       nodeAfterCreate ("node #" ++ itoa Index) NoKeep rh).

(** Modelled from the spec: starting subtasks and waiting for each of them,
    with the task runtime of the concurrency package, which is not part of the
    sources at hand.  The subtasks run here one after the other in the order
    they were started, which is one of the schedules the runtime allows; no
    subtask is skipped because another one failed. *)
Fixpoint runSubtasks {A} (subtasks : list (Op A)) (w : World)
    : World * list (outcome A) :=
  match subtasks with
  | [] => (w, [])
  | t :: rest =>
      let '(w1, r) := t w in
      let '(w2, rs) := runSubtasks rest w1 in
      (w2, r :: rs)
  end.

Definition errorsOf {A} (results : list (outcome A)) : list Error :=
  flat_map (fun r => match r with Failed e => [e] | _ => [] end) results.

Definition valuesOf {A} (results : list (outcome A)) : list A :=
  flat_map (fun r => match r with Ok a => [a] | _ => [] end) results.

Definition anyPanic {A} (results : list (outcome A)) : bool :=
  existsb (fun r => match r with Panic => true | _ => false end) results.

(** Indexes [1 .. count] of a fan-out. *)
Definition indexes (count : Z) : list Z :=
  map (fun i => Z.of_nat i + 1) (seq 0 (Z.to_nat count)).

Definition taskCreateMasters (Count : Z) (NoKeep : bool) : Op unit :=
  if Count <? 1 then
    raise (InvalidParameterError "params.Count"
                                 "cannot be an integer less than 1")
  else if Count =? 0 then ret tt
  else
    fun w =>
      let '(w, results) :=
        runSubtasks (map (fun i => taskCreateMaster i NoKeep) (indexes Count))
                    w in
      match errorsOf results with
      | [] => (w, Ok tt)
      | errs =>
          (w, Failed (NewError
                        ("[cluster " ++ clusterName
                         ++ "] failed to create master(s): "
                         ++ String.concat newline (map msg errs))%string))
      end.

Definition taskCreateNodes (Count : Z) (NoKeep : bool) : Op unit :=
  if Count <? 1 then
    raise (InvalidParameterError "params.Count"
                                 "cannot be an integer less than 1")
  else if Count =? 0 then ret tt
  else
    fun w =>
      let '(w, results) :=
        runSubtasks (map (fun i => taskCreateNode i NoKeep) (indexes Count))
                    w in
      match errorsOf results with
      | [] => (w, Ok tt)
      | errs => (w, Failed (NewErrorList errs))
      end.

(** Calling a hook on the cluster as it is now. *)
Definition callHook {F} (hook : option F)
    (call : F -> JSONProperties -> option Error) : Op unit :=
  fun w => (w, invoke hook (fun f => call f (metadata w))).


Definition taskConfigureMaster (Index : Z) (host : Host) : Op unit :=
  if Index <? 1 then
    raise (InvalidParameterError "params.Index"
                                 "cannot be an integer less than 1")
  else
    answer (installDocker facade host) ;;;
    if Lookup (ConfigureNode makers) then
      callHook (ConfigureMaster makers) (fun f props => f props Index host)
    else
      (* Not finding a callback isn't an error, so return nil in this case *)
      ret tt.

Definition taskConfigureNode (Index : Z) (host : Host) : Op unit :=
  if Index <? 1 then
    raise (InvalidParameterError "params.Index"
                                 "cannot be an integer less than 1")
  else
    answer (installDocker facade host) ;;;
    if negb (Lookup (ConfigureNode makers)) then ret tt
    else callHook (ConfigureNode makers) (fun f props => f props Index host).


Definition configureCluster : Op unit :=
  answer (installReverseProxy facade) ;;;
  answer (installRemoteDesktop facade) ;;;
  if Lookup (ConfigureCluster makers) then
    callHook (ConfigureCluster makers) (fun f props => f props)
  else ret tt.


Definition configureNodesFromList (hosts : list Host) : Op unit :=
  fun w =>
    let '(w, results) :=
      runSubtasks
        (map (fun ih => taskConfigureNode (Z.of_nat (fst ih) + 1) (snd ih))
             (combine (seq 0 (List.length hosts)) hosts)) w in
    if anyPanic results then (w, Panic)
    else
      match errorsOf results with
      | [] => (w, Ok tt)
      | errs => (w, Failed (NewErrorList errs))
      end.

(** The loop of [joinNodesFromList]: it calls [JoinNodeToCluster]. *)
Fixpoint joinEach (hosts : list Host) : Op unit :=
  match hosts with
  | [] => ret tt
  | host :: rest =>
      callHook (JoinNodeToCluster makers) (fun f props => f props host) ;;;
      joinEach rest
  end.

Definition joinNodesFromList (hosts : list Host) : Op unit :=
  if negb (Lookup (JoinNodeToCluster makers))
     && Lookup (ConfigureCluster makers) then
    callHook (ConfigureCluster makers) (fun f props => f props)
  else if Lookup (JoinMasterToCluster makers) then joinEach hosts
  else ret tt.

Fixpoint leaveNodesFromList (hosts : list Host) (master : Host) : Op unit :=
  match hosts with
  | [] => ret tt
  | rh :: rest =>
      (if Lookup (LeaveNodeFromCluster makers) then
         callHook (LeaveNodeFromCluster makers)
                  (fun f props => f props rh master)
       else ret tt) ;;;
      leaveNodesFromList rest master
  end.

Definition deleteHosts (hosts : list Host) : Op unit :=
  fun w =>
    let '(w, results) := runSubtasks (map host_Delete hosts) w in
    match errorsOf results with
    | [] => (w, Ok tt)
    | errs => (w, Failed (NewErrorList errs))
    end.

(** [AddNodes].  The sizing of the new hosts (Defaults property, request)
    only feeds the host request, whose answer is an oracle here, and is left
    out. *)
Definition AddNodes (count : Z) : Op (list Host) :=
  if count =? 0 then
    raise (InvalidParameterError "count" "must be an int > 0")
  else
    fun w =>
      let '(w, results) :=
        runSubtasks (map (fun i => taskCreateNode i false) (indexes count))
                    w in
      let hosts := valuesOf results in
      let body : Op (list Host) :=
        match errorsOf results with
        | [] =>
            configureNodesFromList hosts ;;;
            joinNodesFromList hosts ;;;
            ret hosts
        | errs =>
            raise (NewError
                     ("errors occurred on node addition: "
                      ++ String.concat newline (map msg errs))%string)
        end in
      (* Starting from here, delete nodes if exiting with error *)
      match body w with
      | (w, Failed xerr) =>
          match hosts with
          | [] => (w, Failed xerr)
          | _ =>
              match deleteHosts hosts w with
              | (w, Failed derr) => (w, Failed (AddConsequence xerr derr))
              | (w, _) => (w, Failed xerr)
              end
          end
      | r => r
      end.

End Tasks.

(** ** Removing nodes *)

(** The loop of [containsClusterNode], from position [i] on. *)
Fixpoint containsFrom (i : Z) (list : list propertiesv2.ClusterNode)
    (hostID : string) : bool * Z :=
  match list with
  | [] => (false, 0)
  | v :: rest =>
      if String.eqb (propertiesv2.ID v) hostID then (true, i)
      else containsFrom (i + 1) rest hostID
  end.

Definition containsClusterNode (list : list propertiesv2.ClusterNode)
    (hostID : string) : bool * Z :=
  containsFrom 0 list hostID.

(** The first mutator of [deleteNode]: takes the node out of [PrivateNodes],
    keeping the order of the others, and remembers it. *)
Definition removeNode (host : Host) (nodesV2 : propertiesv2.ClusterNodes)
    : outcome (propertiesv2.ClusterNodes * propertiesv2.ClusterNode) :=
  let nodes := propertiesv2.PrivateNodes nodesV2 in
  let '(found, idx) := containsClusterNode nodes (GetID host) in
  if negb found then
    Failed (NotFoundError
              ("failed to find node '" ++ GetName host ++ "' in cluster")%string)
  else
    match index nodes idx with
    | Ok node =>
        if idx <? len nodes - 1 then
          match slice_to nodes idx, slice_from nodes (idx + 1) with
          | Ok before, Ok after =>
              Ok (setPrivateNodes nodesV2 (before ++ after), node)
          | _, _ => Panic
          end
        else
          match slice_to nodes idx with
          | Ok before => Ok (setPrivateNodes nodesV2 before, node)
          | _ => Panic
          end
    | _ => Panic
    end.

(** The mutator that puts nodes back at the end of [PrivateNodes]. *)
Definition restoreNodes (removed : list propertiesv2.ClusterNode)
    (nodesV2 : propertiesv2.ClusterNodes)
    : outcome (propertiesv2.ClusterNodes * unit) :=
  Ok (setPrivateNodes nodesV2 (propertiesv2.PrivateNodes nodesV2 ++ removed),
      tt).

(** The viewer of [DeleteLastNode]; its result is the value of [node], a nil
    pointer until the assignment. *)
Definition selectLastNode (nodesV2 : propertiesv2.ClusterNodes)
    : outcome (option propertiesv2.ClusterNode) :=
  let nodes := propertiesv2.PrivateNodes nodesV2 in
  match index nodes (len nodes - 1) with
  | Ok node => Ok (Some node)
  | Failed e => Failed e
  | Panic => Panic
  end.

(** The first mutator of the listener's Shrink. *)
Definition shrinkReserve (count : Z) (nodesV2 : propertiesv2.ClusterNodes)
    : outcome (propertiesv2.ClusterNodes * list propertiesv2.ClusterNode) :=
  let nodes := propertiesv2.PrivateNodes nodesV2 in
  let length := len nodes in
  if length <? count then
    Failed (InvalidRequestError
              ("cannot shrink by " ++ itoa count ++ " node(s), only "
               ++ itoa length ++ " node(s) available")%string)
  else
    let first := uint_sub length count in
    match slice_from nodes first with
    | Ok toRemove =>
        match slice_to nodes (uint_sub first 1) with
        | Ok kept => Ok (setPrivateNodes nodesV2 kept, toRemove)
        | _ => Panic
        end
    | _ => Panic
    end.

Section Removal.

Variable makers : Makers.
Variable facade : Facade.

(** [host.Delete] where a host that is already gone is a success. *)
Definition deleteHostIfAny (host : Host) : Op unit :=
  fun w =>
    match host_Delete facade host w with
    | (w, Failed e) => if isNotFound e then (w, Ok tt) else (w, Failed e)
    | r => r
    end.

Definition deleteNode (host master : Host) : Op unit :=
  node <- c_Alter (alterNodesV2 (removeNode host)) ;;
  fun w =>
    match (leaveNodesFromList makers [host] master ;;;
           (if Lookup (UnconfigureNode makers) then
              callHook (UnconfigureNode makers)
                       (fun f props => f props host master)
            else ret tt) ;;;
           deleteHostIfAny host) w with
    | (w, Failed xerr) =>
        (* restore node in cluster metadata if exiting with error *)
        match c_Alter (alterNodesV2 (restoreNodes [node])) w with
        | (w, Failed derr) => (w, Failed (AddConsequence xerr derr))
        | (w, _) => (w, Failed xerr)
        end
    | r => r
    end.

(** [ListMasters]: the hosts of the masters, here in the order of the
    [Masters] list. *)
Fixpoint loadHosts (nodes : list propertiesv2.ClusterNode)
    : outcome (list Host) :=
  match nodes with
  | [] => Ok []
  | v :: rest =>
      match LoadHost facade (propertiesv2.ID v) with
      | Ok host =>
          match loadHosts rest with
          | Ok hosts => Ok (host :: hosts)
          | r => r
          end
      | Failed e => Failed e
      | Panic => Panic
      end
  end.

(** The loop of [FindAvailableMaster]. *)
Fixpoint firstReady (masters : list Host) (lastError : string)
    : outcome Host :=
  match masters with
  | [] =>
      Failed (NotAvailableError
                ("failed to find available master: " ++ lastError)%string)
  | v :: rest =>
      match WaitSSHReady facade v with
      | None => Ok v
      | Some e =>
          match kind e with
          | ErrTimeout => firstReady rest (msg e)
          | _ => Failed e
          end
      end
  end.

Definition FindAvailableMaster : Op Host :=
  OnPanic
    (fun w =>
       let nodesV2 :=
         Inspect (NodesV2 (metadata w)) propertiesv2.newClusterNodes in
       match loadHosts (propertiesv2.Masters nodesV2) with
       | Ok masters => (w, firstReady masters "<nil>")
       | Failed e => (w, Failed e)
       | Panic => (w, Panic)
       end).

Definition DeleteLastNode : Op propertiesv2.ClusterNode :=
  node <- c_Alter (inspectNodesV2 selectLastNode) ;;
  match node with
  | None => raise (NotFoundError "failed to find last node")
  | Some node =>
      selectedMaster <- FindAvailableMaster ;;
      rh <- lift (LoadHost facade (propertiesv2.ID node)) ;;
      deleteNode rh selectedMaster ;;;
      ret node
  end.

(** The result of the subtask the listener starts for one host to remove, as
    the task runtime reports it. *)
Variable taskDeleteNode : Host -> Op unit.



End Removal.

(** The [PrivateNodes] list stored in the metadata. *)
Definition privateNodesOf (w : World) : list propertiesv2.ClusterNode :=
  propertiesv2.PrivateNodes
    (Inspect (NodesV2 (metadata w)) propertiesv2.newClusterNodes).

Definition mastersOf (w : World) : list propertiesv2.ClusterNode :=
  propertiesv2.Masters
    (Inspect (NodesV2 (metadata w)) propertiesv2.newClusterNodes).

(** ** Metadata steps of concurrent creations

    Creations that run at the same time meet in the cluster metadata, where
    every [Alter] is one atomic step.  A run is the sequence of the steps in
    the order the metadata adapter served them. *)

Inductive Mutation : Type :=
| BuildHostname (nodeType : clusternodetype.Enum)
| Registration (toMasters : bool) (rh : Host).

Section Creations.

Variable facade : Facade.

(** One step; a registration that succeeds emits the node it recorded. *)
Definition mutate (m : Mutation) (props : JSONProperties)
    : JSONProperties * list (bool * propertiesv2.ClusterNode) :=
  match m with
  | BuildHostname nodeType =>
      (fst (core_Alter props (alterNodesV2 (nextIndex nodeType))), [])
  | Registration toMasters rh =>
      match core_Alter props
                       (alterNodesV2 (registerHost facade toMasters rh)) with
      | (props', Ok node) => (props', [(toMasters, node)])
      | (props', _) => (props', [])
      end
  end.

Fixpoint run (ms : list Mutation) (props : JSONProperties)
    : JSONProperties * list (bool * propertiesv2.ClusterNode) :=
  match ms with
  | [] => (props, [])
  | m :: rest =>
      let '(props1, out1) := mutate m props in
      let '(props2, out2) := run rest props1 in
      (props2, out1 ++ out2)
  end.

End Creations.

Definition nodesV2Of (props : JSONProperties) : propertiesv2.ClusterNodes :=
  Inspect (NodesV2 props) propertiesv2.newClusterNodes.

(** The numerical IDs a run emitted, in creation order. *)
Definition emittedIDs (out : list (bool * propertiesv2.ClusterNode)) : list Z :=
  map (fun bn => propertiesv2.NumericalID (snd bn)) out.

(** The nodes a run emitted for one of the two lists. *)
Definition emittedFor (toMasters : bool)
    (out : list (bool * propertiesv2.ClusterNode))
    : list propertiesv2.ClusterNode :=
  map snd (filter (fun bn => Bool.eqb (fst bn) toMasters) out).

(** ** Vocabulary of the statements *)



(** The nodes of [l] numbered [g+1], [g+2], ... *)
Fixpoint numbered (g : Z) (l : list propertiesv1.ClusterNode)
    : list propertiesv2.ClusterNode :=
  match l with
  | [] => []
  | i :: rest =>
      propertiesv2.mkClusterNode
        (propertiesv1.ID i) (g + 1) (propertiesv1.Name i)
        (propertiesv1.PublicIP i) (propertiesv1.PrivateIP i)
      :: numbered (g + 1) rest
  end.

(** [first, first+1, ..., first+count-1] *)
Fixpoint countFrom (first : Z) (count : nat) : list Z :=
  match count with
  | O => []
  | S n => first :: countFrom (first + 1) n
  end.

(** Metadata of a cluster created before the v2 and v3 properties existed:
    two masters, one node, a network with one gateway. *)
Definition legacyProps : JSONProperties :=
  mkProps
    (Some (propertiesv1.mkClusterNodes
             [propertiesv1.mkClusterNode "id-m1" "old-master-1" "" "10.0.0.2";
              propertiesv1.mkClusterNode "id-m2" "old-master-2" "" "10.0.0.3"]
             [propertiesv1.mkClusterNode "id-n1" "old-node-1" "" "10.0.0.4"]
             2 1))
    None
    (Some (propertiesv1.mkClusterNetwork
             "net-1" "10.0.0.0/24" "id-gw" "10.0.0.1" "80.0.0.1"))
    None None
    (Some (propertiesv1.mkClusterState clusterstate.Nominal)).


(** A facade whose every call succeeds; hosts have no public IP. *)
Definition okFacade : Facade :=
  {| LoadSubnet := None;
     subnet_Inspect := None;
     GetDefaultRouteIP := None;
     NewHost := None;
     Create := fun name => Ok (mkHost ("id-" ++ name)%string name);
     GetPublicIP := fun _ => Failed (NotFoundError "no public IP");
     GetPrivateIP := fun _ => Ok "10.0.0.9";
     Delete := fun _ => None;
     LoadHost := fun id => Ok (mkHost id id);
     WaitSSHReady := fun _ => None;
     installDocker := fun _ => None;
     installProxyCacheClient := fun _ => None;
     installNodeRequirements := fun _ _ => None;
     installReverseProxy := None;
     installRemoteDesktop := None |}.

(** The same facade where the proxycache client fails to install. *)
Definition proxyCacheFails : Facade :=
  {| LoadSubnet := None;
     subnet_Inspect := None;
     GetDefaultRouteIP := None;
     NewHost := None;
     Create := Create okFacade;
     GetPublicIP := GetPublicIP okFacade;
     GetPrivateIP := GetPrivateIP okFacade;
     Delete := fun _ => None;
     LoadHost := LoadHost okFacade;
     WaitSSHReady := fun _ => None;
     installDocker := fun _ => None;
     installProxyCacheClient :=
       fun _ => Some (NewError "failed to install proxycache-client");
     installNodeRequirements := fun _ _ => None;
     installReverseProxy := None;
     installRemoteDesktop := None |}.





Definition node1 : propertiesv2.ClusterNode :=
  propertiesv2.mkClusterNode "id-c1-node-1" 2 "c1-node-1" "" "10.0.0.11".
Definition node2 : propertiesv2.ClusterNode :=
  propertiesv2.mkClusterNode "id-c1-node-2" 3 "c1-node-2" "" "10.0.0.12".
Definition node3 : propertiesv2.ClusterNode :=
  propertiesv2.mkClusterNode "id-c1-node-3" 4 "c1-node-3" "" "10.0.0.13".
Definition master1 : propertiesv2.ClusterNode :=
  propertiesv2.mkClusterNode "id-c1-master-1" 1 "c1-master-1" "" "10.0.0.10".

(** A running cluster: one master, three nodes, state Nominal. *)
Definition runningProps : JSONProperties :=
  mkProps None
    (Some (propertiesv2.mkClusterNodes [master1] [node1; node2; node3] 1 3 4))
    None
    (Some (propertiesv2.mkClusterNetwork
             "subnet-1" "10.0.0.0/24" "id-gw" "10.0.0.1" "" ""
             "10.0.0.1" "80.0.0.1" "" "80.0.0.1" ""))
    None
    (Some (propertiesv1.mkClusterState clusterstate.Nominal)).

Definition runningWorld : World :=
  mkWorld runningProps
          ["id-gw"; "id-c1-master-1"; "id-c1-node-1"; "id-c1-node-2";
           "id-c1-node-3"].

(** The same cluster without any private node. *)
Definition noNodeWorld : World :=
  mkWorld (setNodesV2 runningProps
             (propertiesv2.mkClusterNodes [master1] [] 1 0 1))
          ["id-gw"; "id-c1-master-1"].

(** Steps of one master and two node creations running together. *)
Definition threeCreations : list Mutation :=
  [BuildHostname clusternodetype.Master;
   BuildHostname clusternodetype.Node;
   Registration false (mkHost "id-c1-node-4" "c1-node-4");
   BuildHostname clusternodetype.Node;
   Registration true (mkHost "id-c1-master-2" "c1-master-2");
   Registration false (mkHost "id-c1-node-5" "c1-node-5")].

(** The numerical IDs of all the nodes of a cluster, masters first. *)
Definition numericalIDs (nodesV2 : propertiesv2.ClusterNodes) : list Z :=
  map propertiesv2.NumericalID
      (propertiesv2.Masters nodesV2 ++ propertiesv2.PrivateNodes nodesV2).

(** No two nodes share a numerical ID, and none is above the counter. *)
Definition wellNumbered (nodesV2 : propertiesv2.ClusterNodes) : Prop :=
  NoDup (numericalIDs nodesV2)
  /\ Forall (fun id => id <= propertiesv2.GlobalLastIndex nodesV2)
            (numericalIDs nodesV2).


(** The result of calls made one after the other until one fails. *)
Fixpoint firstFailure (answers : list (option Error)) : outcome unit :=
  match answers with
  | [] => Ok tt
  | None :: rest => firstFailure rest
  | Some e :: _ => Failed e
  end.

(** A facade none of whose answers to a host creation is a failure. *)
Definition reliable (facade : Facade) : Prop :=
  LoadSubnet facade = None
  /\ subnet_Inspect facade = None
  /\ GetDefaultRouteIP facade = None
  /\ NewHost facade = None
  /\ (forall name, exists rh, Create facade name = Ok rh)
  /\ (forall rh, exists ip, publicIPOrNone facade rh = Ok ip)
  /\ (forall rh, exists ip, GetPrivateIP facade rh = Ok ip)
  /\ (forall rh, installProxyCacheClient facade rh = None)
  /\ (forall nodeType rh, installNodeRequirements facade nodeType rh = None).

(** The facade of [okFacade] where Docker fails to install. *)
Definition dockerFails : Facade :=
  {| LoadSubnet := None;
     subnet_Inspect := None;
     GetDefaultRouteIP := None;
     NewHost := None;
     Create := Create okFacade;
     GetPublicIP := GetPublicIP okFacade;
     GetPrivateIP := GetPrivateIP okFacade;
     Delete := fun _ => None;
     LoadHost := LoadHost okFacade;
     WaitSSHReady := fun _ => None;
     installDocker := fun _ => Some (NewError "failed to install docker");
     installProxyCacheClient := fun _ => None;
     installNodeRequirements := fun _ _ => None;
     installReverseProxy := None;
     installRemoteDesktop := None |}.

(** * Properties *)

(** ** Go arithmetic *)

Lemma uint_incr_small (x : Z) : 0 <= x < 2 ^ 64 - 1 -> uint_incr x = x + 1.
Proof. intros H. unfold uint_incr. apply Z.mod_small. lia. Qed.

Lemma len_nonneg {A} (l : list A) : 0 <= len l.
Proof. unfold len. lia. Qed.

Lemma len_cons {A} (a : A) (l : list A) : len (a :: l) = len l + 1.
Proof. unfold len. cbn [List.length]. lia. Qed.

Lemma len_app {A} (l1 l2 : list A) : len (l1 ++ l2) = len l1 + len l2.
Proof. unfold len. rewrite length_app. lia. Qed.

(** ** Upgrade of the Nodes property *)


Lemma numbered_ids (l : list propertiesv1.ClusterNode) :
  forall g,
    map propertiesv2.NumericalID (numbered g l)
    = countFrom (g + 1) (List.length l).
Proof.
  induction l as [|i rest IH]; intros g; cbn; [reflexivity|].
  now rewrite IH.
Qed.

Lemma countFrom_app (n m : nat) :
  forall first,
    countFrom first (n + m)
    = countFrom first n ++ countFrom (first + Z.of_nat n) m.
Proof.
  induction n as [|n IH]; intros first.
  - cbn. now rewrite Z.add_0_r.
  - cbn [Nat.add countFrom app]. rewrite IH. do 3 f_equal. lia.
Qed.

Lemma fold_upgradeNode (toMasters : bool) (l : list propertiesv1.ClusterNode) :
  forall n : propertiesv2.ClusterNodes,
    0 <= propertiesv2.GlobalLastIndex n ->
    propertiesv2.GlobalLastIndex n + len l < 2 ^ 64 ->
    fold_left (upgradeNode toMasters) l n
    = propertiesv2.mkClusterNodes
        (if toMasters
         then propertiesv2.Masters n
              ++ numbered (propertiesv2.GlobalLastIndex n) l
         else propertiesv2.Masters n)
        (if toMasters
         then propertiesv2.PrivateNodes n
         else propertiesv2.PrivateNodes n
              ++ numbered (propertiesv2.GlobalLastIndex n) l)
        (propertiesv2.MasterLastIndex n)
        (propertiesv2.PrivateLastIndex n)
        (propertiesv2.GlobalLastIndex n + len l).
Proof.
  induction l as [|i rest IH]; intros n Hg Hlen.
  - cbn. unfold len. cbn. rewrite Z.add_0_r, !app_nil_r.
    destruct n, toMasters; reflexivity.
  - rewrite len_cons in Hlen. pose proof (len_nonneg rest) as Hr.
    cbn [fold_left]. rewrite IH.
    + unfold upgradeNode. rewrite uint_incr_small by lia.
      rewrite len_cons.
      destruct toMasters; cbn; rewrite <- ?app_assoc; cbn; f_equal; lia.
    + unfold upgradeNode. rewrite uint_incr_small by lia.
      destruct toMasters; cbn; lia.
    + unfold upgradeNode. rewrite uint_incr_small by lia.
      destruct toMasters; cbn; lia.
Qed.



(** ** Upgrade of the Network property *)



(** ** Numerical IDs of created nodes *)

Lemma nodesV2Of_setNodesV2 (props : JSONProperties)
    (n : propertiesv2.ClusterNodes) :
  nodesV2Of (setNodesV2 props n) = n.
Proof. reflexivity. Qed.

Lemma StronglySorted_lt_NoDup (l : list Z) :
  StronglySorted Z.lt l -> NoDup l.
Proof.
  induction 1 as [|a l Hs IH Hall]; constructor; [|exact IH].
  intros Hin. rewrite Forall_forall in Hall. specialize (Hall a Hin). lia.
Qed.

(** What one metadata step does to the counter, the lists and the output. *)
Lemma mutate_cases (facade : Facade) (m : Mutation) (props : JSONProperties) :
  let before := nodesV2Of props in
  let after := nodesV2Of (fst (mutate facade m props)) in
  let out := snd (mutate facade m props) in
  0 <= propertiesv2.GlobalLastIndex before < 2 ^ 64 - 1 ->
  (out = []
   /\ propertiesv2.GlobalLastIndex after = propertiesv2.GlobalLastIndex before
   /\ propertiesv2.Masters after = propertiesv2.Masters before
   /\ propertiesv2.PrivateNodes after = propertiesv2.PrivateNodes before)
  \/ (exists toMasters node,
         out = [(toMasters, node)]
         /\ propertiesv2.NumericalID node
            = propertiesv2.GlobalLastIndex before + 1
         /\ propertiesv2.GlobalLastIndex after
            = propertiesv2.GlobalLastIndex before + 1
         /\ propertiesv2.Masters after
            = propertiesv2.Masters before
              ++ (if toMasters then [node] else [])
         /\ propertiesv2.PrivateNodes after
            = propertiesv2.PrivateNodes before
              ++ (if toMasters then [] else [node])).
Proof.
  intros before after out Hg. subst before after out.
  destruct m as [nodeType | toMasters rh].
  - left. unfold mutate, core_Alter, alterNodesV2, Alter.
    fold (nodesV2Of props).
    destruct nodeType; cbn; repeat apply conj; reflexivity.
  - unfold mutate, core_Alter, alterNodesV2, Alter.
    fold (nodesV2Of props). unfold registerHost.
    destruct (publicIPOrNone facade rh) as [pubIP|e|];
      [|left; cbn; repeat apply conj; reflexivity ..].
    destruct (GetPrivateIP facade rh) as [privIP|e|];
      [|left; cbn; repeat apply conj; reflexivity ..].
    right. exists toMasters. eexists.
    destruct toMasters; cbn; rewrite uint_incr_small by lia;
      rewrite ?app_nil_r; repeat apply conj; reflexivity.
Qed.

Lemma run_invariant (facade : Facade) (ms : list Mutation) :
  forall props : JSONProperties,
    let g := propertiesv2.GlobalLastIndex (nodesV2Of props) in
    let after := nodesV2Of (fst (run facade ms props)) in
    let out := snd (run facade ms props) in
    0 <= g ->
    g + len ms < 2 ^ 64 ->
    g <= propertiesv2.GlobalLastIndex after <= g + len ms
    /\ StronglySorted Z.lt (emittedIDs out)
    /\ Forall (fun id => g < id <= propertiesv2.GlobalLastIndex after)
              (emittedIDs out)
    /\ propertiesv2.Masters after
       = propertiesv2.Masters (nodesV2Of props) ++ emittedFor true out
    /\ propertiesv2.PrivateNodes after
       = propertiesv2.PrivateNodes (nodesV2Of props) ++ emittedFor false out.
Proof.
  induction ms as [|m rest IH]; intros props g after out Hg Hroom;
    subst g after out.
  - cbn. unfold len. cbn. rewrite !app_nil_r.
    repeat apply conj; try constructor; lia.
  - rewrite len_cons in Hroom. pose proof (len_nonneg rest) as Hrest.
    cbn [run].
    pose proof (mutate_cases facade m props) as Hm. cbn zeta in Hm.
    specialize (Hm ltac:(lia)).
    destruct (mutate facade m props) as [props1 out1]. cbn [fst snd] in Hm.
    specialize (IH props1). cbn zeta in IH.
    destruct (run facade rest props1) as [props2 out2]. cbn [fst snd] in *.
    rewrite len_cons.
    destruct Hm as [(-> & Hg1 & Hma & Hpr)
                   | (toMasters & node & -> & Hid & Hg1 & Hma & Hpr)].
    + rewrite Hg1 in IH. destruct IH as (Hb & Hs & Hall & Hm2 & Hp2);
        [lia | lia |].
      cbn [app]. rewrite Hm2, Hp2, Hma, Hpr.
      repeat apply conj; try assumption; try reflexivity; lia.
    + rewrite Hg1 in IH. destruct IH as (Hb & Hs & Hall & Hm2 & Hp2);
        [lia | lia |].
      cbn [app]. unfold emittedIDs in *. cbn [map snd].
      rewrite Hm2, Hp2, Hma, Hpr, Hid.
      split; [lia|]. split.
      { constructor; [exact Hs|].
        eapply Forall_impl; [|exact Hall]. cbn. intros; lia. }
      split.
      { constructor; [lia|].
        eapply Forall_impl; [|exact Hall]. cbn. intros; lia. }
      unfold emittedFor. cbn [filter fst].
      destruct toMasters; cbn [Bool.eqb map snd];
        rewrite <- ?app_assoc, ?app_nil_r; split; reflexivity.
Qed.

(** The three places where a creation task touches the metadata are the
    steps of a run. *)
Lemma buildHostname_is_step (clusterName core : string) (facade : Facade)
    (nodeType : clusternodetype.Enum) (w : World) :
  metadata (fst (buildHostname clusterName core nodeType w))
  = fst (mutate facade (BuildHostname nodeType) (metadata w)).
Proof.
  unfold mutate, buildHostname, OnPanic, bind, c_Alter, core_Alter,
    alterNodesV2, Alter.
  now destruct nodeType.
Qed.

Lemma masterAfterCreate_is_step (facade : Facade) (NoKeep : bool)
    (rh : Host) (w : World) :
  metadata (fst (masterAfterCreate facade NoKeep rh w))
  = fst (mutate facade (Registration true rh) (metadata w)).
Proof.
  unfold mutate, masterAfterCreate, c_Alter, core_Alter, alterNodesV2, Alter,
    host_Delete, bind, answer.
  destruct (registerHost facade true rh _) as [[n node]|e|]; cbn.
  - destruct (installProxyCacheClient facade rh); [reflexivity|].
    now destruct (installNodeRequirements facade clusternodetype.Master rh).
  - destruct NoKeep; [|reflexivity]. now destruct (Delete facade rh).
  - reflexivity.
Qed.

Lemma nodeAfterCreate_is_step (facade : Facade) (hostLabel : string)
    (NoKeep : bool) (rh : Host) (w : World) :
  metadata (fst (nodeAfterCreate facade hostLabel NoKeep rh w))
  = fst (mutate facade (Registration false rh) (metadata w)).
Proof.
  unfold mutate, nodeAfterCreate, deleteOnFailure, c_Alter, core_Alter,
    alterNodesV2, Alter, host_Delete, bind, answer, ret.
  destruct (registerHost facade false rh _) as [[n node]|e|]; cbn.
  - destruct (installProxyCacheClient facade rh);
      [|destruct (installNodeRequirements facade clusternodetype.Node rh)];
      try reflexivity;
      (destruct NoKeep; [|reflexivity]; now destruct (Delete facade rh)).
  - destruct NoKeep; [|reflexivity]. now destruct (Delete facade rh).
  - reflexivity.
Qed.

(** C6.  Starting from metadata whose counter leaves room for them (no wrap
    of the unsigned counter), any sequence of metadata steps of concurrent
    master and node creations emits numerical IDs that are strictly
    increasing in creation order, pairwise distinct and above every ID
    emitted before the run; the emitted nodes are what the run appended to
    the masters and to the private nodes. *)
Theorem numericalID_strictly_increasing (facade : Facade)
    (ms : list Mutation) (props : JSONProperties)
    (Hg : 0 <= propertiesv2.GlobalLastIndex (nodesV2Of props))
    (Hroom : propertiesv2.GlobalLastIndex (nodesV2Of props) + len ms
             < 2 ^ 64) :
  let out := snd (run facade ms props) in
  let after := nodesV2Of (fst (run facade ms props)) in
  StronglySorted Z.lt (emittedIDs out)
  /\ NoDup (emittedIDs out)
  /\ Forall (fun id => propertiesv2.GlobalLastIndex (nodesV2Of props) < id)
            (emittedIDs out)
  /\ propertiesv2.Masters after
     = propertiesv2.Masters (nodesV2Of props) ++ emittedFor true out
  /\ propertiesv2.PrivateNodes after
     = propertiesv2.PrivateNodes (nodesV2Of props) ++ emittedFor false out.
Proof.
  intros out after. subst out after.
  destruct (run_invariant facade ms props Hg Hroom)
    as (_ & Hs & Hall & Hm & Hp).
  repeat apply conj; try assumption.
  - now apply StronglySorted_lt_NoDup.
  - eapply Forall_impl; [|exact Hall]. cbn. intros; lia.
Qed.

Lemma numericalID_strictly_increasing_witness :
  StronglySorted Z.lt
    (emittedIDs (snd (run okFacade threeCreations runningProps)))
  /\ emittedIDs (snd (run okFacade threeCreations runningProps)) = [5; 6; 7].
Proof.
  split.
  - apply (numericalID_strictly_increasing okFacade threeCreations
                                           runningProps).
    + cbn. lia.
    + vm_compute. reflexivity.
  - vm_compute. reflexivity.
Defined.

(** ** Start and Stop *)








(** ** Flavor hooks *)







(** ** Failure of a single-host creation *)

Lemma world_eta (w : World) : mkWorld (metadata w) (provider w) = w.
Proof. now destruct w. Qed.

(** C5 as stated fails.  With NoKeep set (keepOnFailure=false) and the
    proxycache client failing to install, the node task deletes the host it
    created but leaves the node's record in privateNodes. *)
Lemma taskCreateNode_counterexample :
  snd (taskCreateNode "c1" proxyCacheFails 1 true runningWorld)
  = Failed (NewError "failed to install proxycache-client")
  /\ provider (fst (taskCreateNode "c1" proxyCacheFails 1 true runningWorld))
     = provider runningWorld
  /\ map propertiesv2.Name
         (privateNodesOf
            (fst (taskCreateNode "c1" proxyCacheFails 1 true runningWorld)))
     = ["c1-node-1"; "c1-node-2"; "c1-node-3"; "c1-node-4"].
Proof. repeat apply conj; reflexivity. Qed.

(** The master task in the same situation: the host it created stays at the
    provider, and its record stays in the masters. *)
Lemma taskCreateMaster_keeps_host :
  snd (taskCreateMaster "c1" proxyCacheFails 1 true runningWorld)
  = Failed (NewError "failed to install proxycache-client")
  /\ provider (fst (taskCreateMaster "c1" proxyCacheFails 1 true
                                     runningWorld))
     = "id-c1-master-2" :: provider runningWorld
  /\ map propertiesv2.Name
         (mastersOf
            (fst (taskCreateMaster "c1" proxyCacheFails 1 true runningWorld)))
     = ["c1-master-1"; "c1-master-2"].
Proof. repeat apply conj; reflexivity. Qed.

(** C5, amended.  In a node creation with NoKeep set (keepOnFailure=false),
    when a step after the provider-side creation of host [rh] fails: the
    deletion of [rh] is requested; if it succeeds the host is gone from the
    provider, and if it fails, with NotFound or any other error, that error
    is attached to the returned error as a consequence.  The record of the
    node stays in privateNodes when it was already appended; the task never
    removes it.  In a master creation with NoKeep set the host is deleted in
    the same way when the metadata update is what failed. *)
Theorem nodeAfterCreate_failure (facade : Facade) (hostLabel : string)
    (rh : Host) (w w' : World) (xerr : Error)
    (Hfails : nodeAfterCreate facade hostLabel true rh w
              = (w', Failed xerr)) :
  privateNodesOf w'
  = privateNodesOf w
    ++ match registerHost facade false rh (nodesV2Of (metadata w)) with
       | Ok (_, node) => [node]
       | _ => []
       end
  /\ mastersOf w' = mastersOf w
  /\ match Delete facade rh with
     | None => provider w' = remove string_dec (GetID rh) (provider w)
     | Some derr =>
         provider w' = provider w
         /\ exists primary, xerr = AddConsequence primary derr
     end
  /\ (forall m m' merr,
         masterAfterCreate facade true rh m = (m', Failed merr) ->
         (forall r, registerHost facade true rh (nodesV2Of (metadata m))
                    <> Ok r) ->
         metadata m' = metadata m
         /\ match Delete facade rh with
            | None => provider m' = remove string_dec (GetID rh) (provider m)
            | Some derr =>
                provider m' = provider m
                /\ exists primary,
                     merr = Wrap (AddConsequence primary derr)
                                 "[%s] Host creation failed"
            end).
Proof.
  repeat apply conj.
  - revert Hfails.
    unfold nodeAfterCreate, deleteOnFailure, c_Alter, core_Alter,
      alterNodesV2, Alter, host_Delete, bind, answer, ret, privateNodesOf.
    fold (nodesV2Of (metadata w)).
    destruct (registerHost facade false rh (nodesV2Of (metadata w)))
      as [[n' node]|e|] eqn:Hreg.
    + assert (Hn : propertiesv2.PrivateNodes n'
                   = propertiesv2.PrivateNodes (nodesV2Of (metadata w))
                     ++ [node]).
      { revert Hreg. unfold registerHost.
        destruct (publicIPOrNone facade rh); try discriminate.
        destruct (GetPrivateIP facade rh); try discriminate.
        intros [= <- <-]. reflexivity. }
      cbn [metadata provider].
      destruct (installProxyCacheClient facade rh);
        [|destruct (installNodeRequirements facade clusternodetype.Node rh)];
        try discriminate;
        destruct (Delete facade rh); intros [= <- <-]; exact Hn.
    + destruct (Delete facade rh); intros [= <- <-]; cbn;
        now rewrite app_nil_r.
    + discriminate.
  - revert Hfails.
    unfold nodeAfterCreate, deleteOnFailure, c_Alter, core_Alter,
      alterNodesV2, Alter, host_Delete, bind, answer, ret, mastersOf.
    fold (nodesV2Of (metadata w)).
    destruct (registerHost facade false rh (nodesV2Of (metadata w)))
      as [[n' node]|e|] eqn:Hreg.
    + assert (Hn : propertiesv2.Masters n'
                   = propertiesv2.Masters (nodesV2Of (metadata w))).
      { revert Hreg. unfold registerHost.
        destruct (publicIPOrNone facade rh); try discriminate.
        destruct (GetPrivateIP facade rh); try discriminate.
        intros [= <- <-]. reflexivity. }
      cbn [metadata provider].
      destruct (installProxyCacheClient facade rh);
        [|destruct (installNodeRequirements facade clusternodetype.Node rh)];
        try discriminate;
        destruct (Delete facade rh); intros [= <- <-]; exact Hn.
    + destruct (Delete facade rh); intros [= <- <-]; reflexivity.
    + discriminate.
  - revert Hfails.
    unfold nodeAfterCreate, deleteOnFailure, c_Alter, core_Alter,
      alterNodesV2, Alter, host_Delete, bind, answer, ret.
    destruct (registerHost facade false rh _) as [[n' node]|e|].
    + cbn [metadata provider].
      destruct (installProxyCacheClient facade rh);
        [|destruct (installNodeRequirements facade clusternodetype.Node rh)];
        try discriminate;
        destruct (Delete facade rh); intros [= <- <-]; cbn;
        try reflexivity; (split; [reflexivity | eexists; reflexivity]).
    + destruct (Delete facade rh); intros [= <- <-]; cbn;
        try reflexivity; (split; [reflexivity | eexists; reflexivity]).
    + discriminate.
  - intros m m' merr Hm Hreg. revert Hm.
    unfold masterAfterCreate, c_Alter, core_Alter, alterNodesV2, Alter,
      host_Delete, bind, answer.
    fold (nodesV2Of (metadata m)).
    destruct (registerHost facade true rh (nodesV2Of (metadata m)))
      as [r|e|].
    + now destruct (Hreg r).
    + destruct (Delete facade rh); intros [= <- <-]; cbn;
        (split; [reflexivity|]); try reflexivity;
        (split; [reflexivity | eexists; reflexivity]).
    + discriminate.
Qed.

Lemma nodeAfterCreate_failure_witness :
  privateNodesOf
    (fst (nodeAfterCreate proxyCacheFails "node #1" true
                          (mkHost "id-c1-node-4" "c1-node-4") runningWorld))
  = privateNodesOf runningWorld
    ++ [propertiesv2.mkClusterNode "id-c1-node-4" 5 "c1-node-4" ""
                                   "10.0.0.9"].
Proof.
  exact (proj1 (nodeAfterCreate_failure
                  proxyCacheFails "node #1"
                  (mkHost "id-c1-node-4" "c1-node-4")
                  runningWorld _ _ eq_refl)).
Defined.

(** ** Creating no node *)

(** C9 as stated fails: with a count of zero neither the nodes task nor
    AddNodes returns success. *)
Lemma zero_count_counterexample :
  snd (taskCreateNodes "c1" okFacade 0 true runningWorld) <> Ok tt
  /\ (forall hosts,
         snd (AddNodes "c1" noMakers okFacade 0 runningWorld) <> Ok hosts).
Proof. split; [|intros hosts]; vm_compute; discriminate. Qed.

(** C9, amended.  With a count of zero, the nodes task and AddNodes both
    return an InvalidParameter error and leave the metadata and the provider
    as they are. *)
Theorem zero_count_rejected (clusterName : string) (makers : Makers)
    (facade : Facade) (NoKeep : bool) (w : World) :
  taskCreateNodes clusterName facade 0 NoKeep w
  = (w, Failed (InvalidParameterError
                  "params.Count" "cannot be an integer less than 1"))
  /\ AddNodes clusterName makers facade 0 w
     = (w, Failed (InvalidParameterError "count" "must be an int > 0")).
Proof. split; reflexivity. Qed.

(** ** Deleting the last node *)

Lemma index_last {A} (l : list A) :
  index l (len l - 1)
  = match rev l with
    | [] => Panic
    | a :: _ => Ok a
    end.
Proof.
  induction l as [|a l _] using rev_ind.
  - reflexivity.
  - rewrite rev_app_distr. cbn [rev app]. unfold index.
    rewrite len_app. pose proof (len_nonneg l) as Hl.
    replace (len l + len [a] - 1) with (len l) by (unfold len; cbn; lia).
    destruct (Z.leb_spec 0 (len l)); [|lia].
    unfold len. rewrite Nat2Z.id, nth_error_app2 by lia.
    now rewrite Nat.sub_diag.
Qed.

(** C10.  The viewer of DeleteLastNode panics on an empty privateNodes list
    and selects the last entry otherwise; it never leaves [node] nil.  So
    DeleteLastNode is the operation without its NotFound guard: a panic when
    there is no private node, and otherwise the deletion of the last one. *)
Theorem DeleteLastNode_guard_unreachable (makers : Makers) (facade : Facade)
    (w : World) :
  selectLastNode (nodesV2Of (metadata w))
  = match rev (privateNodesOf w) with
    | [] => Panic
    | node :: _ => Ok (Some node)
    end
  /\ selectLastNode (nodesV2Of (metadata w)) <> Ok None
  /\ DeleteLastNode makers facade w
     = match rev (privateNodesOf w) with
       | [] => (w, Panic)
       | node :: _ =>
           (selectedMaster <- FindAvailableMaster facade ;;
            rh <- lift (LoadHost facade (propertiesv2.ID node)) ;;
            deleteNode makers facade rh selectedMaster ;;;
            ret node) w
       end.
Proof.
  assert (Hsel : selectLastNode (nodesV2Of (metadata w))
                 = match rev (privateNodesOf w) with
                   | [] => Panic
                   | node :: _ => Ok (Some node)
                   end).
  { unfold selectLastNode, privateNodesOf. fold (nodesV2Of (metadata w)).
    rewrite index_last.
    now destruct (rev (propertiesv2.PrivateNodes (nodesV2Of (metadata w)))). }
  repeat apply conj.
  - exact Hsel.
  - rewrite Hsel. destruct (rev (privateNodesOf w)); discriminate.
  - unfold DeleteLastNode, bind at 1, c_Alter, core_Alter, inspectNodesV2.
    fold (nodesV2Of (metadata w)). rewrite Hsel.
    destruct (rev (privateNodesOf w)) as [|node rest];
      now rewrite world_eta.
Qed.

(** ** Shrink *)

(** When fewer nodes are asked for than there are, the first mutator of
    Shrink takes the last [count] nodes as the ones to remove and keeps one
    node less than the others. *)
Lemma shrinkReserve_keeps_one_less (count : Z)
    (nodesV2 : propertiesv2.ClusterNodes) :
  0 <= count < len (propertiesv2.PrivateNodes nodesV2) ->
  len (propertiesv2.PrivateNodes nodesV2) < 2 ^ 64 ->
  shrinkReserve count nodesV2
  = Ok (setPrivateNodes nodesV2
          (firstn (List.length (propertiesv2.PrivateNodes nodesV2)
                   - Z.to_nat count - 1)
                  (propertiesv2.PrivateNodes nodesV2)),
        skipn (List.length (propertiesv2.PrivateNodes nodesV2)
               - Z.to_nat count)
              (propertiesv2.PrivateNodes nodesV2)).
Proof.
  intros Hcount Hlen. unfold shrinkReserve.
  set (nodes := propertiesv2.PrivateNodes nodesV2) in *.
  destruct (Z.ltb_spec (len nodes) count); [lia|].
  unfold uint_sub. rewrite (Z.mod_small (len nodes - count)) by lia.
  rewrite (Z.mod_small (len nodes - count - 1)) by lia.
  unfold slice_from, slice_to.
  destruct (Z.leb_spec 0 (len nodes - count)); [|lia].
  destruct (Z.leb_spec (len nodes - count) (len nodes)); [|lia].
  destruct (Z.leb_spec 0 (len nodes - count - 1)); [|lia].
  destruct (Z.leb_spec (len nodes - count - 1) (len nodes)); [|lia].
  cbn [andb]. unfold len.
  replace (Z.to_nat (Z.of_nat (List.length nodes) - count))
    with (List.length nodes - Z.to_nat count)%nat by lia.
  replace (Z.to_nat (Z.of_nat (List.length nodes) - count - 1))
    with (List.length nodes - Z.to_nat count - 1)%nat by lia.
  reflexivity.
Qed.


(** * Further properties of the controller *)

From Stdlib Require Permutation.

(** Case analysis on the innermost scrutinee of a hypothesis. *)
Ltac break_match_in H :=
  match type of H with
  | context [match ?x with _ => _ end] =>
      lazymatch x with
      | context [match _ with _ => _ end] => fail
      | _ => destruct x eqn:?
      end
  end.

(** ** Finding and removing a node *)

Lemma containsFrom_found (before after : list propertiesv2.ClusterNode)
    (node : propertiesv2.ClusterNode) (hostID : string) :
  Forall (fun v => propertiesv2.ID v <> hostID) before ->
  propertiesv2.ID node = hostID ->
  forall i,
    containsFrom i (before ++ node :: after) hostID = (true, i + len before).
Proof.
  intros Hbefore Hid.
  induction Hbefore as [|v rest Hv _ IH]; intros i; cbn [app containsFrom].
  - rewrite (proj2 (String.eqb_eq _ _) Hid). unfold len. cbn. f_equal. lia.
  - rewrite (proj2 (String.eqb_neq _ _) Hv), IH, len_cons. f_equal. lia.
Qed.

Lemma containsFrom_absent (list : list propertiesv2.ClusterNode)
    (hostID : string) :
  Forall (fun v => propertiesv2.ID v <> hostID) list ->
  forall i, containsFrom i list hostID = (false, 0).
Proof.
  induction 1 as [|v rest Hv _ IH]; intros i; cbn [containsFrom].
  - reflexivity.
  - now rewrite (proj2 (String.eqb_neq _ _) Hv), IH.
Qed.

(** Every list splits at the first node with a given ID, or has none. *)
Lemma first_with_ID (list : list propertiesv2.ClusterNode) (hostID : string) :
  Forall (fun v => propertiesv2.ID v <> hostID) list
  \/ exists before node after,
       list = before ++ node :: after
       /\ propertiesv2.ID node = hostID
       /\ Forall (fun v => propertiesv2.ID v <> hostID) before.
Proof.
  induction list as [|v rest IH].
  - left. constructor.
  - destruct (string_dec (propertiesv2.ID v) hostID) as [Heq|Hne].
    + right. exists [], v, rest. repeat apply conj; auto.
    + destruct IH as [Hall | (before & node & after & -> & Hid & Hbefore)].
      * left. now constructor.
      * right. exists (v :: before), node, after.
        repeat apply conj; auto.
Qed.

Lemma slice_to_app {A} (before rest : list A) :
  slice_to (before ++ rest) (len before) = Ok before.
Proof.
  unfold slice_to. rewrite len_app.
  pose proof (len_nonneg before). pose proof (len_nonneg rest).
  destruct (Z.leb_spec 0 (len before)); [|lia].
  destruct (Z.leb_spec (len before) (len before + len rest)); [|lia].
  cbn [andb]. unfold len. rewrite Nat2Z.id.
  now rewrite firstn_app, Nat.sub_diag, firstn_all, app_nil_r.
Qed.

Lemma slice_from_app {A} (before rest : list A) :
  slice_from (before ++ rest) (len before) = Ok rest.
Proof.
  unfold slice_from. rewrite len_app.
  pose proof (len_nonneg before). pose proof (len_nonneg rest).
  destruct (Z.leb_spec 0 (len before)); [|lia].
  destruct (Z.leb_spec (len before) (len before + len rest)); [|lia].
  cbn [andb]. unfold len. rewrite Nat2Z.id.
  now rewrite skipn_app, Nat.sub_diag, skipn_all.
Qed.

Lemma index_app {A} (before after : list A) (a : A) :
  index (before ++ a :: after) (len before) = Ok a.
Proof.
  unfold index. pose proof (len_nonneg before).
  destruct (Z.leb_spec 0 (len before)); [|lia].
  unfold len. rewrite Nat2Z.id, nth_error_app2 by lia.
  now rewrite Nat.sub_diag.
Qed.

(** The mutator of [deleteNode] on a list split at the first node with the
    ID of the host. *)
Lemma removeNode_at (host : Host) (nodesV2 : propertiesv2.ClusterNodes)
    (before after : list propertiesv2.ClusterNode)
    (node : propertiesv2.ClusterNode) :
  propertiesv2.PrivateNodes nodesV2 = before ++ node :: after ->
  propertiesv2.ID node = GetID host ->
  Forall (fun v => propertiesv2.ID v <> GetID host) before ->
  removeNode host nodesV2
  = Ok (setPrivateNodes nodesV2 (before ++ after), node).
Proof.
  intros Hsplit Hid Hbefore. unfold removeNode, containsClusterNode.
  rewrite Hsplit, (containsFrom_found before after node _ Hbefore Hid).
  cbn [negb]. rewrite Z.add_0_l, index_app.
  rewrite len_app, len_cons.
  pose proof (len_nonneg before). pose proof (len_nonneg after).
  destruct (Z.ltb_spec (len before) (len before + (len after + 1) - 1)).
  - rewrite slice_to_app.
    replace (before ++ node :: after) with ((before ++ [node]) ++ after)
      by now rewrite <- app_assoc.
    replace (len before + 1) with (len (before ++ [node]))
      by (rewrite len_app; unfold len; cbn [List.length]; lia).
    now rewrite slice_from_app.
  - assert (after = []) as ->.
    { destruct after as [|a rest]; [reflexivity|].
      pose proof (len_nonneg rest). rewrite len_cons in *. lia. }
    rewrite slice_to_app. now rewrite app_nil_r.
Qed.

Lemma removeNode_absent (host : Host) (nodesV2 : propertiesv2.ClusterNodes) :
  Forall (fun v => propertiesv2.ID v <> GetID host)
         (propertiesv2.PrivateNodes nodesV2) ->
  removeNode host nodesV2
  = Failed (NotFoundError
              ("failed to find node '" ++ GetName host ++ "' in cluster")).
Proof.
  intros Habsent. unfold removeNode, containsClusterNode.
  now rewrite (containsFrom_absent _ _ Habsent).
Qed.

(** X1.  [containsClusterNode] reports a list position exactly when a node
    of the list has the ID: the position is that of the first such node, and
    the answer is (false, 0) when there is none. *)
Theorem containsClusterNode_first (list : list propertiesv2.ClusterNode)
    (hostID : string) :
  (Forall (fun v => propertiesv2.ID v <> hostID) list
   /\ containsClusterNode list hostID = (false, 0))
  \/ (exists before node after,
         list = before ++ node :: after
         /\ propertiesv2.ID node = hostID
         /\ Forall (fun v => propertiesv2.ID v <> hostID) before
         /\ containsClusterNode list hostID = (true, len before)
         /\ index list (len before) = Ok node).
Proof.
  destruct (first_with_ID list hostID)
    as [Hall | (before & node & after & -> & Hid & Hbefore)].
  - left. split; [exact Hall|]. now apply containsFrom_absent.
  - right. exists before, node, after. repeat apply conj; auto.
    + unfold containsClusterNode.
      now rewrite (containsFrom_found before after node _ Hbefore Hid).
    + apply index_app.
Qed.

(** X2.  The removal step of [deleteNode] never panics.  When no private
    node has the ID of the host it fails with NotFound; otherwise it takes
    out the first private node with that ID and only that one: the nodes
    before and after it keep their order, and the masters and the three
    counters are left as they are. *)
Theorem removeNode_first_only (host : Host)
    (nodesV2 : propertiesv2.ClusterNodes) :
  (Forall (fun v => propertiesv2.ID v <> GetID host)
          (propertiesv2.PrivateNodes nodesV2)
   /\ removeNode host nodesV2
      = Failed (NotFoundError
                  ("failed to find node '" ++ GetName host ++ "' in cluster")))
  \/ (exists before node after nodesV2',
         propertiesv2.PrivateNodes nodesV2 = before ++ node :: after
         /\ propertiesv2.ID node = GetID host
         /\ Forall (fun v => propertiesv2.ID v <> GetID host) before
         /\ removeNode host nodesV2 = Ok (nodesV2', node)
         /\ propertiesv2.PrivateNodes nodesV2' = before ++ after
         /\ propertiesv2.Masters nodesV2' = propertiesv2.Masters nodesV2
         /\ propertiesv2.MasterLastIndex nodesV2'
            = propertiesv2.MasterLastIndex nodesV2
         /\ propertiesv2.PrivateLastIndex nodesV2'
            = propertiesv2.PrivateLastIndex nodesV2
         /\ propertiesv2.GlobalLastIndex nodesV2'
            = propertiesv2.GlobalLastIndex nodesV2).
Proof.
  destruct (first_with_ID (propertiesv2.PrivateNodes nodesV2) (GetID host))
    as [Hall | (before & node & after & Hsplit & Hid & Hbefore)].
  - left. split; [exact Hall|]. now apply removeNode_absent.
  - right. exists before, node, after, (setPrivateNodes nodesV2 (before ++ after)).
    repeat apply conj; auto using removeNode_at.
Qed.

(** X3.  [deleteNode] on a cluster that holds the node never panics and
    never touches the masters.  When it succeeds the node is out of
    privateNodes, the others keep their order, and the host is gone from the
    provider unless the provider answered NotFound.  When a later step fails
    the node is put back at the end of privateNodes, not at its former place,
    and the provider still has the host. *)
Theorem deleteNode_outcome (makers : Makers) (facade : Facade)
    (host master : Host) (w : World)
    (before after : list propertiesv2.ClusterNode)
    (node : propertiesv2.ClusterNode)
    (Hsplit : privateNodesOf w = before ++ node :: after)
    (Hid : propertiesv2.ID node = GetID host)
    (Hbefore : Forall (fun v => propertiesv2.ID v <> GetID host) before) :
  mastersOf (fst (deleteNode makers facade host master w)) = mastersOf w
  /\ match snd (deleteNode makers facade host master w) with
     | Ok _ =>
         privateNodesOf (fst (deleteNode makers facade host master w))
         = before ++ after
         /\ match Delete facade host with
            | None =>
                provider (fst (deleteNode makers facade host master w))
                = remove string_dec (GetID host) (provider w)
            | Some e =>
                isNotFound e = true
                /\ provider (fst (deleteNode makers facade host master w))
                   = provider w
            end
     | Failed _ =>
         privateNodesOf (fst (deleteNode makers facade host master w))
         = before ++ after ++ [node]
         /\ provider (fst (deleteNode makers facade host master w))
            = provider w
     | Panic => False
     end.
Proof.
  unfold privateNodesOf in Hsplit.
  pose proof (removeNode_at host _ before after node Hsplit Hid Hbefore)
    as Hremove.
  destruct (deleteNode makers facade host master w) as [w' r] eqn:Hrun.
  cbn [fst snd].
  unfold deleteNode, bind at 1, c_Alter at 1, core_Alter, alterNodesV2, Alter
    in Hrun.
  rewrite Hremove in Hrun.
  cbn [leaveNodesFromList] in Hrun.
  unfold bind, callHook, invoke, ret, deleteHostIfAny, host_Delete, c_Alter,
    core_Alter, alterNodesV2, Alter, restoreNodes in Hrun.
  cbn [metadata provider Lookup] in Hrun.
  unfold privateNodesOf, mastersOf.
  repeat break_match_in Hrun; cbn in Hrun;
    injection Hrun as <- <-; cbn; rewrite <- ?app_assoc;
    repeat apply conj; auto; discriminate.
Qed.

Lemma deleteNode_outcome_witness :
  privateNodesOf
    (fst (deleteNode noMakers okFacade (mkHost "id-c1-node-2" "c1-node-2")
                     (mkHost "id-c1-master-1" "c1-master-1") runningWorld))
  = [node1; node3].
Proof.
  refine (proj1 (proj2 (deleteNode_outcome
                          noMakers okFacade
                          (mkHost "id-c1-node-2" "c1-node-2")
                          (mkHost "id-c1-master-1" "c1-master-1")
                          runningWorld [node1] [node3] node2
                          eq_refl eq_refl _))).
  constructor; [cbn; discriminate | constructor].
Defined.

(** ** Numbering of the nodes *)

Lemma registerHost_inv (facade : Facade) (toMasters : bool) (rh : Host)
    (nodesV2 registered : propertiesv2.ClusterNodes)
    (node : propertiesv2.ClusterNode) :
  registerHost facade toMasters rh nodesV2 = Ok (registered, node) ->
  propertiesv2.ID node = GetID rh
  /\ propertiesv2.Name node = GetName rh
  /\ propertiesv2.NumericalID node
     = uint_incr (propertiesv2.GlobalLastIndex nodesV2)
  /\ registered
     = propertiesv2.mkClusterNodes
         (propertiesv2.Masters nodesV2 ++ (if toMasters then [node] else []))
         (propertiesv2.PrivateNodes nodesV2
          ++ (if toMasters then [] else [node]))
         (propertiesv2.MasterLastIndex nodesV2)
         (propertiesv2.PrivateLastIndex nodesV2)
         (uint_incr (propertiesv2.GlobalLastIndex nodesV2)).
Proof.
  unfold registerHost.
  destruct (publicIPOrNone facade rh); try discriminate.
  destruct (GetPrivateIP facade rh); try discriminate.
  destruct toMasters; intros [= <- <-]; cbn; rewrite ?app_nil_r;
    repeat apply conj; reflexivity.
Qed.

Lemma wellNumbered_permutation (a b : propertiesv2.ClusterNodes) :
  Permutation.Permutation (numericalIDs a) (numericalIDs b) ->
  propertiesv2.GlobalLastIndex a = propertiesv2.GlobalLastIndex b ->
  wellNumbered a -> wellNumbered b.
Proof.
  intros Hperm Hg [Hnodup Hall]. split.
  - eapply Permutation.Permutation_NoDup; eassumption.
  - rewrite <- Hg. eapply Permutation.Permutation_Forall; eassumption.
Qed.

(** Appending a node numbered with the next value of the counter. *)
Lemma wellNumbered_next (before after : propertiesv2.ClusterNodes) :
  Permutation.Permutation
    (numericalIDs after)
    (propertiesv2.GlobalLastIndex before + 1 :: numericalIDs before) ->
  propertiesv2.GlobalLastIndex after
  = propertiesv2.GlobalLastIndex before + 1 ->
  wellNumbered before -> wellNumbered after.
Proof.
  intros Hperm Hg [Hnodup Hall]. split.
  - eapply Permutation.Permutation_NoDup;
      [apply Permutation.Permutation_sym; exact Hperm|].
    constructor; [|exact Hnodup].
    intros Hin. rewrite Forall_forall in Hall. specialize (Hall _ Hin). lia.
  - eapply Permutation.Permutation_Forall;
      [apply Permutation.Permutation_sym; exact Hperm|].
    rewrite Hg. constructor; [lia|].
    eapply Forall_impl; [|exact Hall]. cbn. intros; lia.
Qed.

Lemma mutate_keeps_wellNumbered (facade : Facade) (m : Mutation)
    (props : JSONProperties) :
  0 <= propertiesv2.GlobalLastIndex (nodesV2Of props) < 2 ^ 64 - 1 ->
  wellNumbered (nodesV2Of props) ->
  wellNumbered (nodesV2Of (fst (mutate facade m props))).
Proof.
  intros Hg Hwell.
  destruct (mutate_cases facade m props Hg)
    as [(_ & Hg1 & Hma & Hpr)
       | (toMasters & node & _ & Hid & Hg1 & Hma & Hpr)].
  - eapply wellNumbered_permutation; [|symmetry; exact Hg1|exact Hwell].
    unfold numericalIDs. now rewrite Hma, Hpr.
  - eapply wellNumbered_next; [|exact Hg1|exact Hwell].
    unfold numericalIDs. rewrite Hma, Hpr, <- Hid.
    destruct toMasters; rewrite ?app_nil_r, ?map_app; cbn [map].
    + rewrite <- app_assoc. cbn [app].
      apply Permutation.Permutation_sym, Permutation.Permutation_middle.
    + rewrite app_assoc.
      apply Permutation.Permutation_sym, Permutation.Permutation_cons_append.
Qed.

Lemma run_keeps_wellNumbered (facade : Facade) (ms : list Mutation) :
  forall props,
    0 <= propertiesv2.GlobalLastIndex (nodesV2Of props) ->
    propertiesv2.GlobalLastIndex (nodesV2Of props) + len ms < 2 ^ 64 ->
    wellNumbered (nodesV2Of props) ->
    wellNumbered (nodesV2Of (fst (run facade ms props))).
Proof.
  induction ms as [|m rest IH]; intros props Hg Hroom Hwell.
  - exact Hwell.
  - rewrite len_cons in Hroom. pose proof (len_nonneg rest).
    cbn [run].
    pose proof (mutate_keeps_wellNumbered facade m props ltac:(lia) Hwell)
      as Hstep.
    pose proof (mutate_cases facade m props ltac:(lia)) as Hcases.
    cbn zeta in Hcases.
    destruct (mutate facade m props) as [props1 out1]. cbn [fst snd] in *.
    specialize (IH props1).
    destruct (run facade rest props1) as [props2 out2]. cbn [fst] in *.
    apply IH; [| |exact Hstep];
      destruct Hcases as [(_ & Hg1 & _) | (? & ? & _ & _ & Hg1 & _)]; lia.
Qed.

(** X4.  When no two nodes of a cluster share a numerical ID and none is
    above the counter, this still holds after any sequence of metadata steps
    of concurrent creations that does not wrap the counter: a new node never
    takes the numerical ID of an existing master or node. *)
Theorem creations_keep_numbering (facade : Facade) (ms : list Mutation)
    (props : JSONProperties)
    (Hg : 0 <= propertiesv2.GlobalLastIndex (nodesV2Of props))
    (Hroom : propertiesv2.GlobalLastIndex (nodesV2Of props) + len ms
             < 2 ^ 64)
    (Hwell : wellNumbered (nodesV2Of props)) :
  wellNumbered (nodesV2Of (fst (run facade ms props))).
Proof. now apply run_keeps_wellNumbered. Qed.

Lemma creations_keep_numbering_witness :
  NoDup (numericalIDs
           (nodesV2Of (fst (run okFacade threeCreations runningProps)))).
Proof.
  refine (proj1 (creations_keep_numbering okFacade threeCreations
                                          runningProps _ _ _)).
  - cbn. lia.
  - vm_compute. reflexivity.
  - split.
    + repeat constructor; cbn; intuition discriminate.
    + repeat constructor; cbn; lia.
Defined.

Lemma countFrom_bounds (count : nat) :
  forall first, Forall (fun id => first <= id < first + Z.of_nat count)
                       (countFrom first count).
Proof.
  induction count as [|n IH]; intros first; cbn [countFrom].
  - constructor.
  - constructor; [lia|].
    eapply Forall_impl; [|apply IH]. cbn. intros; lia.
Qed.

Lemma countFrom_NoDup (count : nat) :
  forall first, NoDup (countFrom first count).
Proof.
  induction count as [|n IH]; intros first; cbn [countFrom].
  - constructor.
  - constructor; [|apply IH].
    intros Hin. pose proof (countFrom_bounds n (first + 1)) as Hb.
    rewrite Forall_forall in Hb. specialize (Hb _ Hin). lia.
Qed.

(** X5.  The nodes of a cluster loaded from metadata without a Nodes v2
    property are numbered without repetition, and so are they after any
    later sequence of metadata steps of creations that does not wrap the
    counter: the numerical IDs given after the upgrade never collide with
    those the upgrade gave. *)
Theorem upgrade_then_creations (facade : Facade) (ms : list Mutation)
    (props : JSONProperties)
    (Habsent : NodesV2 props = None)
    (Hroom : len (propertiesv1.Masters
                    (Inspect (NodesV1 props) propertiesv1.newClusterNodes))
             + len (propertiesv1.PrivateNodes
                      (Inspect (NodesV1 props) propertiesv1.newClusterNodes))
             + len ms < 2 ^ 64) :
  exists upgraded,
    updateNodesPropertyIfNeeded props = Ok upgraded
    /\ wellNumbered (nodesV2Of upgraded)
    /\ wellNumbered (nodesV2Of (fst (run facade ms upgraded))).
Proof.
  set (nodesV1 := Inspect (NodesV1 props) propertiesv1.newClusterNodes) in *.
  pose proof (len_nonneg (propertiesv1.Masters nodesV1)) as Hm.
  pose proof (len_nonneg (propertiesv1.PrivateNodes nodesV1)) as Hp.
  pose proof (len_nonneg ms) as Hms.
  assert (Hup : upgradeNodes nodesV1 propertiesv2.newClusterNodes
                = propertiesv2.mkClusterNodes
                    (numbered 0 (propertiesv1.Masters nodesV1))
                    (numbered (len (propertiesv1.Masters nodesV1))
                              (propertiesv1.PrivateNodes nodesV1))
                    (propertiesv1.MasterLastIndex nodesV1)
                    (propertiesv1.PrivateLastIndex nodesV1)
                    (len (propertiesv1.Masters nodesV1)
                     + len (propertiesv1.PrivateNodes nodesV1))).
  { unfold upgradeNodes.
    rewrite (fold_upgradeNode true) by (cbn; lia).
    rewrite (fold_upgradeNode false) by (cbn; lia).
    reflexivity. }
  assert (Hwell : wellNumbered
                    (upgradeNodes nodesV1 propertiesv2.newClusterNodes)).
  { rewrite Hup. unfold wellNumbered, numericalIDs.
    cbn [propertiesv2.Masters propertiesv2.PrivateNodes
         propertiesv2.GlobalLastIndex].
    rewrite map_app, !numbered_ids. split.
    - replace (len (propertiesv1.Masters nodesV1) + 1)
        with (0 + 1 + Z.of_nat (List.length (propertiesv1.Masters nodesV1)))
        by (unfold len; lia).
      rewrite <- countFrom_app. apply countFrom_NoDup.
    - apply Forall_app. split.
      + eapply Forall_impl; [|apply countFrom_bounds]. cbn beta.
        unfold len in *. intros; lia.
      + eapply Forall_impl; [|apply countFrom_bounds]. cbn beta.
        unfold len in *. intros; lia. }
  exists (setNodesV2 props
            (upgradeNodes nodesV1 propertiesv2.newClusterNodes)).
  split; [|split].
  - unfold updateNodesPropertyIfNeeded, Alter. rewrite Habsent. reflexivity.
  - exact Hwell.
  - apply run_keeps_wellNumbered; [| |exact Hwell];
      rewrite nodesV2Of_setNodesV2, Hup; cbn; lia.
Qed.

Lemma upgrade_then_creations_witness :
  exists upgraded,
    updateNodesPropertyIfNeeded legacyProps = Ok upgraded
    /\ NoDup (numericalIDs
                (nodesV2Of (fst (run okFacade threeCreations upgraded)))).
Proof.
  destruct (upgrade_then_creations okFacade threeCreations legacyProps
                                   eq_refl)
    as (upgraded & Hrun & _ & Hwell & _).
  - vm_compute. reflexivity.
  - exists upgraded. split; assumption.
Defined.

(** X6.  Recording a host whose ID no private node has, and then taking it
    out again with the removal step of [deleteNode], gives back the
    privateNodes list and the masters as they were: the removed node is the
    recorded one.  The counter keeps its new value, so the numerical ID of
    the removed node is not given again. *)
Theorem registerHost_then_removeNode (facade : Facade) (rh : Host)
    (nodesV2 registered : propertiesv2.ClusterNodes)
    (node : propertiesv2.ClusterNode)
    (Hfresh : Forall (fun v => propertiesv2.ID v <> GetID rh)
                     (propertiesv2.PrivateNodes nodesV2))
    (Hroom : 0 <= propertiesv2.GlobalLastIndex nodesV2 < 2 ^ 64 - 1)
    (Hrecorded : registerHost facade false rh nodesV2
                 = Ok (registered, node)) :
  exists removed,
    removeNode rh registered = Ok (removed, node)
    /\ propertiesv2.PrivateNodes removed = propertiesv2.PrivateNodes nodesV2
    /\ propertiesv2.Masters removed = propertiesv2.Masters nodesV2
    /\ propertiesv2.NumericalID node
       = propertiesv2.GlobalLastIndex nodesV2 + 1
    /\ propertiesv2.GlobalLastIndex removed
       = propertiesv2.GlobalLastIndex nodesV2 + 1.
Proof.
  destruct (registerHost_inv _ _ _ _ _ _ Hrecorded)
    as (Hid & _ & Hnum & ->).
  rewrite uint_incr_small in * by exact Hroom.
  eexists. split.
  - apply (removeNode_at rh _ (propertiesv2.PrivateNodes nodesV2) [] node);
      [reflexivity | exact Hid | exact Hfresh].
  - cbn. rewrite !app_nil_r. repeat apply conj; auto.
Qed.

Lemma registerHost_then_removeNode_witness :
  exists removed,
    removeNode (mkHost "id-c1-node-4" "c1-node-4")
               (nodesV2Of
                  (fst (mutate okFacade
                               (Registration false
                                  (mkHost "id-c1-node-4" "c1-node-4"))
                               runningProps)))
    = Ok (removed,
          propertiesv2.mkClusterNode "id-c1-node-4" 5 "c1-node-4" ""
                                     "10.0.0.9")
    /\ propertiesv2.PrivateNodes removed = [node1; node2; node3].
Proof.
  destruct (registerHost_then_removeNode
              okFacade (mkHost "id-c1-node-4" "c1-node-4")
              (nodesV2Of runningProps)
              (nodesV2Of
                 (fst (mutate okFacade
                              (Registration false
                                 (mkHost "id-c1-node-4" "c1-node-4"))
                              runningProps)))
              (propertiesv2.mkClusterNode "id-c1-node-4" 5 "c1-node-4" ""
                                          "10.0.0.9"))
    as (removed & Hremove & Hnodes & _).
  - repeat constructor; cbn; discriminate.
  - cbn. lia.
  - reflexivity.
  - exists removed. split; assumption.
Defined.

Lemma removeNode_first_parts (host : Host)
    (nodesV2 : propertiesv2.ClusterNodes) :
  Forall (fun v => propertiesv2.ID v <> GetID host)
         (propertiesv2.PrivateNodes nodesV2)
  \/ exists before node after,
       propertiesv2.PrivateNodes nodesV2 = before ++ node :: after
       /\ propertiesv2.ID node = GetID host
       /\ Forall (fun v => propertiesv2.ID v <> GetID host) before.
Proof. apply first_with_ID. Qed.

(** X7.  Taking a node out with the removal step of [deleteNode] and
    putting it back with the restore step both keep the numbering of the
    cluster free of repetitions. *)
Theorem removeNode_keeps_numbering (host : Host)
    (nodesV2 removed : propertiesv2.ClusterNodes)
    (node : propertiesv2.ClusterNode)
    (Hwell : wellNumbered nodesV2)
    (Hremove : removeNode host nodesV2 = Ok (removed, node)) :
  wellNumbered removed
  /\ exists restored,
       restoreNodes [node] removed = Ok (restored, tt)
       /\ wellNumbered restored
       /\ Permutation.Permutation (propertiesv2.PrivateNodes restored)
                                  (propertiesv2.PrivateNodes nodesV2).
Proof.
  destruct (removeNode_first_parts host nodesV2)
    as [Habsent | (before & found & after & Hsplit & Hid & Hbefore)].
  - rewrite (removeNode_absent _ _ Habsent) in Hremove. discriminate.
  - rewrite (removeNode_at _ _ _ _ _ Hsplit Hid Hbefore) in Hremove.
    injection Hremove as <- <-.
    assert (Hperm : Permutation.Permutation
                      (before ++ after ++ [found]) (before ++ found :: after)).
    { apply Permutation.Permutation_app_head.
      apply Permutation.Permutation_sym,
        Permutation.Permutation_cons_append. }
    assert (Hrestored : wellNumbered
                          (setPrivateNodes
                             (setPrivateNodes nodesV2 (before ++ after))
                             ((before ++ after) ++ [found]))).
    { eapply wellNumbered_permutation; [| |exact Hwell]; [|reflexivity].
      unfold numericalIDs. cbn [setPrivateNodes propertiesv2.Masters
                                propertiesv2.PrivateNodes].
      rewrite Hsplit, <- app_assoc.
      apply Permutation.Permutation_map, Permutation.Permutation_app_head,
        Permutation.Permutation_sym, Hperm. }
    split.
    + destruct Hwell as [Hnodup Hall]. unfold wellNumbered, numericalIDs in *.
      cbn [setPrivateNodes propertiesv2.Masters propertiesv2.PrivateNodes
           propertiesv2.GlobalLastIndex].
      rewrite Hsplit in Hnodup, Hall.
      rewrite app_assoc, map_app in Hnodup, Hall. cbn [map] in Hnodup, Hall.
      rewrite app_assoc, map_app. split.
      * eapply NoDup_remove_1. exact Hnodup.
      * apply Forall_app in Hall. destruct Hall as [Ha Hb].
        apply Forall_app. split; [exact Ha|]. now inversion Hb.
    + eexists. split; [reflexivity|]. split; [exact Hrestored|].
      cbn [setPrivateNodes propertiesv2.PrivateNodes].
      rewrite Hsplit, <- app_assoc. exact Hperm.
Qed.

Lemma removeNode_keeps_numbering_witness :
  wellNumbered
    (setPrivateNodes (nodesV2Of runningProps) [node1; node3]).
Proof.
  refine (proj1 (removeNode_keeps_numbering
                   (mkHost "id-c1-node-2" "c1-node-2")
                   (nodesV2Of runningProps) _ node2 _ eq_refl)).
  split.
  - repeat constructor; cbn; intuition discriminate.
  - repeat constructor; cbn; lia.
Defined.

(** ** Loading, stopping and starting *)

(** X8.  The legacy handling of [LoadCluster] never fails.  After it the
    metadata holds a Nodes v2 and a Network v3 property, the older versions
    and the State property are kept, a v2 or v3 property that was already
    there is untouched, and running it again changes nothing. *)
Theorem LoadCluster_upgrade_complete (props : JSONProperties) :
  exists loaded,
    LoadCluster_upgrade props = Ok loaded
    /\ Lookup (NodesV2 loaded) = true
    /\ Lookup (NetworkV3 loaded) = true
    /\ NodesV1 loaded = NodesV1 props
    /\ NetworkV1 loaded = NetworkV1 props
    /\ NetworkV2 loaded = NetworkV2 props
    /\ StateV1 loaded = StateV1 props
    /\ (Lookup (NodesV2 props) = true -> NodesV2 loaded = NodesV2 props)
    /\ (Lookup (NetworkV3 props) = true ->
        NetworkV3 loaded = NetworkV3 props)
    /\ LoadCluster_upgrade loaded = Ok loaded.
Proof.
  unfold LoadCluster_upgrade, updateNodesPropertyIfNeeded,
    updateNetworkPropertyIfNeeded, Alter.
  destruct props as [n1 [n2|] w1 w2 [w3|] st]; cbn;
    eexists; repeat apply conj; try reflexivity; try discriminate.
Qed.





(** X10.  Start never asks the provider for anything: its result and the
    metadata it leaves are the same whatever the provider would answer.  It
    only reads the state through GetState, and the code that starts the hosts
    and marks the cluster Nominal is never reached. *)
Theorem Start_ignores_provider (makers : Makers) (service other : Service)
    (props : JSONProperties) :
  Start makers service props = Start makers other props
  /\ NodesV2 (fst (Start makers service props)) = NodesV2 props
  /\ (forall refreshed state,
         GetState makers props = (refreshed, Ok state) ->
         state <> clusterstate.Starting ->
         fst (Start makers service props) = refreshed).
Proof.
  assert (Hnodes : forall p r,
             GetState makers p = r -> NodesV2 (fst r) = NodesV2 p).
  { intros p r <-. unfold GetState.
    destruct (GetState_hook makers) as [hook|]; [|reflexivity].
    destruct (hook p) as [state [e|]]; reflexivity. }
  assert (Hpoll : forall p, NodesV2 (fst (pollStarted makers p)) = NodesV2 p).
  { intros p. unfold pollStarted.
    pose proof (Hnodes p _ eq_refl) as H.
    destruct (GetState makers p) as [p' [state|e|]]; cbn [fst] in *;
      [destruct state|..]; exact H. }
  assert (Hretry : forall tries p,
             NodesV2 (fst (WhileUnsuccessfulDelay5Seconds
                             tries (pollStarted makers) p))
             = NodesV2 p).
  { induction tries as [|n IH]; intros p; cbn; [reflexivity|].
    pose proof (Hpoll p) as H.
    destruct (pollStarted makers p) as [p' [e|]]; cbn [fst] in *;
      [rewrite IH|]; exact H. }
  repeat apply conj.
  - unfold Start.
    destruct (GetState makers props) as [refreshed [state|e|]];
      [destruct state|..]; reflexivity.
  - unfold Start. pose proof (Hnodes props _ eq_refl) as H.
    destruct (GetState makers props) as [refreshed [state|e|]];
      cbn [fst] in *; [destruct state|..]; try exact H.
    pose proof (Hretry fiveMinutes refreshed) as Hr.
    destruct (WhileUnsuccessfulDelay5Seconds _ _ refreshed) as [p' [e|]];
      cbn [fst] in *; congruence.
  - intros refreshed state Hget Hstate. unfold Start. rewrite Hget.
    destruct state; try reflexivity. contradiction.
Qed.

(** ** Hooks tested under another name *)

(** X11.  [taskConfigureMaster] calls ConfigureMaster when ConfigureNode is
    defined.  It panics on a nil function exactly when the index is valid,
    docker installs, ConfigureNode is defined and ConfigureMaster is not;
    when ConfigureNode is not defined it succeeds without calling a
    ConfigureMaster that is defined; when both are defined its result is
    that of ConfigureMaster. *)
Theorem taskConfigureMaster_tests_ConfigureNode (makers : Makers)
    (facade : Facade) (Index : Z) (host : Host) (w : World) :
  (snd (taskConfigureMaster makers facade Index host w) = Panic
   <-> 1 <= Index
       /\ installDocker facade host = None
       /\ ConfigureNode makers <> None
       /\ ConfigureMaster makers = None)
  /\ (1 <= Index ->
      installDocker facade host = None ->
      ConfigureNode makers = None ->
      taskConfigureMaster makers facade Index host w = (w, Ok tt))
  /\ (forall configureMaster,
         1 <= Index ->
         installDocker facade host = None ->
         ConfigureNode makers <> None ->
         ConfigureMaster makers = Some configureMaster ->
         taskConfigureMaster makers facade Index host w
         = (w, match configureMaster (metadata w) Index host with
               | None => Ok tt
               | Some e => Failed e
               end)).
Proof.
  unfold taskConfigureMaster, bind, answer, callHook, invoke, raise, ret.
  destruct (Z.ltb_spec Index 1) as [Hlow|Hvalid];
    [|destruct (installDocker facade host) as [e|];
      [|destruct (ConfigureNode makers) as [configureNode|];
        [destruct (ConfigureMaster makers) as [configureMaster|]|]]];
    cbn [Lookup snd];
    (split;
     [split; [intros HP | intros (H1 & H2 & H3 & H4)]
     |split; [intros H1 H2 H3 | intros f H1 H2 H3 H4]]);
    try lia; try discriminate; try congruence;
    try (injection H4 as <-);
    try (destruct (configureMaster (metadata w) Index host));
    try reflexivity; try discriminate;
    repeat apply conj; congruence || lia.
Qed.

Lemma joinEach_defined (makers : Makers)
    (join : JSONProperties -> Host -> option Error) (hosts : list Host) :
  JoinNodeToCluster makers = Some join ->
  forall w,
    joinEach makers hosts w
    = (w, firstFailure (map (join (metadata w)) hosts)).
Proof.
  intros Hjoin.
  induction hosts as [|host rest IH]; intros w; cbn [joinEach map firstFailure].
  - reflexivity.
  - unfold bind, callHook, invoke. rewrite Hjoin.
    destruct (join (metadata w) host); [reflexivity | apply IH].
Qed.

Lemma firstFailure_not_panic (answers : list (option Error)) :
  firstFailure answers <> Panic.
Proof.
  induction answers as [|[e|] rest IH]; cbn; [discriminate | discriminate|].
  exact IH.
Qed.

(** X12.  [joinNodesFromList] joins the nodes only when JoinMasterToCluster
    is defined and calls JoinNodeToCluster for each.  It panics on a nil
    function exactly when there is a host to join, JoinMasterToCluster is
    defined and neither JoinNodeToCluster nor ConfigureCluster is; a flavor
    without JoinNodeToCluster but with ConfigureCluster gets ConfigureCluster
    run instead; a flavor with JoinNodeToCluster but without
    JoinMasterToCluster gets no node joined and a success; with both join
    hooks defined the hosts are joined in order up to the first failure,
    which is the result. *)
Theorem joinNodesFromList_tests_JoinMaster (makers : Makers)
    (hosts : list Host) (w : World) :
  (snd (joinNodesFromList makers hosts w) = Panic
   <-> hosts <> []
       /\ JoinMasterToCluster makers <> None
       /\ JoinNodeToCluster makers = None
       /\ ConfigureCluster makers = None)
  /\ (forall configureCluster,
         JoinNodeToCluster makers = None ->
         ConfigureCluster makers = Some configureCluster ->
         joinNodesFromList makers hosts w
         = (w, match configureCluster (metadata w) with
               | None => Ok tt
               | Some e => Failed e
               end))
  /\ (JoinNodeToCluster makers <> None ->
      JoinMasterToCluster makers = None ->
      joinNodesFromList makers hosts w = (w, Ok tt))
  /\ (forall join,
         JoinNodeToCluster makers = Some join ->
         JoinMasterToCluster makers <> None ->
         joinNodesFromList makers hosts w
         = (w, firstFailure (map (join (metadata w)) hosts))).
Proof.
  unfold joinNodesFromList.
  destruct (JoinNodeToCluster makers) as [join|] eqn:Hjoin;
    destruct (ConfigureCluster makers) as [configureCluster|] eqn:Hcluster;
    destruct (JoinMasterToCluster makers) as [joinMaster|] eqn:Hmaster;
    cbn [Lookup negb andb];
    rewrite ?(joinEach_defined makers _ hosts Hjoin);
    unfold callHook, invoke, ret; cbn [snd];
    (split;
     [split; [intros HP | intros (H1 & H2 & H3 & H4)]
     |split; [intros f H1 H2 | split; [intros H1 H2 | intros f H1 H2]]]);
    try discriminate; try congruence;
    try (now apply firstFailure_not_panic in HP);
    try (injection H2 as <-); try (injection H1 as <-);
    try (destruct (configureCluster (metadata w)));
    try reflexivity; try discriminate.
  - destruct hosts as [|host rest]; [discriminate|].
    repeat apply conj; congruence.
  - destruct hosts as [|host rest]; [contradiction|].
    cbn [joinEach]. unfold bind, callHook, invoke. now rewrite Hjoin.
Qed.

(** ** Creating one host *)

Ltac unfold_task H :=
  unfold taskCreateNode, taskCreateMaster, nodeAfterCreate, masterAfterCreate,
    deleteOnFailure, buildHostname, OnPanic, host_Create, host_Delete, bind,
    answer, raise, ret, c_Alter, core_Alter, alterNodesV2, Alter, nextIndex
    in H;
  cbn [metadata provider fst snd] in H.

(** X13.  When [taskCreateNode] succeeds: the host was created under the
    name <cluster>-node-<index>, where the index is the next value of
    privateLastIndex; the provider holds one more host, the created one; and
    privateNodes has one more entry, at its end, which carries the ID and the
    name of the host and the next numerical ID.  The masters are left as
    they are. *)
Theorem taskCreateNode_success (clusterName : string) (facade : Facade)
    (Index : Z) (NoKeep : bool) (w w' : World) (rh : Host)
    (Hrun : taskCreateNode clusterName facade Index NoKeep w = (w', Ok rh)) :
  let before := nodesV2Of (metadata w) in
  1 <= Index
  /\ Create facade
            (clusterName ++ "-" ++ "node" ++ "-"
             ++ itoa (int_incr (propertiesv2.PrivateLastIndex before)))%string
     = Ok rh
  /\ provider w' = GetID rh :: provider w
  /\ mastersOf w' = mastersOf w
  /\ propertiesv2.PrivateLastIndex (nodesV2Of (metadata w'))
     = int_incr (propertiesv2.PrivateLastIndex before)
  /\ exists node,
       privateNodesOf w' = privateNodesOf w ++ [node]
       /\ propertiesv2.ID node = GetID rh
       /\ propertiesv2.Name node = GetName rh
       /\ propertiesv2.NumericalID node
          = uint_incr (propertiesv2.GlobalLastIndex before).
Proof.
  intros before. subst before. unfold nodesV2Of, privateNodesOf, mastersOf.
  unfold_task Hrun.
  destruct (Z.ltb_spec Index 1) as [Hlow|Hvalid]; [discriminate|].
  repeat break_match_in Hrun; try discriminate;
    injection Hrun as <- <-;
    repeat match goal with
           | H : (_, _) = (_, _) |- _ => injection H as <- <-
           | H : (_, _) = (_, _) |- _ => injection H as <-
           | H : Ok _ = Ok _ |- _ => injection H as <-
           | H : Ok _ = Ok _ |- _ => injection H as <- <-
           end;
    subst; try discriminate.
  all: match goal with
       | H : registerHost _ _ _ _ = Ok _ |- _ =>
           apply registerHost_inv in H;
           destruct H as (Hid & Hname & Hnum & ->)
       end.
  all: cbn in *; repeat apply conj; auto using app_nil_r; try lia.
  all: match goal with
       | n : propertiesv2.ClusterNode |- _ => exists n
       end; repeat apply conj; auto.
Qed.

Lemma taskCreateNode_success_witness :
  provider (fst (taskCreateNode "c1" okFacade 1 true runningWorld))
  = "id-c1-node-4" :: provider runningWorld.
Proof.
  exact (proj1 (proj2 (proj2 (taskCreateNode_success
                                "c1" okFacade 1 true runningWorld _
                                (mkHost "id-c1-node-4" "c1-node-4")
                                eq_refl)))).
Defined.

(** X14.  A call of [taskCreateNode] with a valid index that gets past the
    loading of the subnet takes the next value of privateLastIndex whatever
    happens afterwards: the index of a creation that failed is not given
    again.  The masters and masterLastIndex are never touched, and
    privateNodes is either left as it is or has one more entry at its end. *)
Theorem taskCreateNode_consumes_index (clusterName : string)
    (facade : Facade) (Index : Z) (NoKeep : bool) (w : World)
    (Hvalid : 1 <= Index)
    (Hsubnet : LoadSubnet facade = None) :
  let before := nodesV2Of (metadata w) in
  let after :=
    nodesV2Of (metadata (fst (taskCreateNode clusterName facade Index NoKeep
                                             w))) in
  propertiesv2.PrivateLastIndex after
  = int_incr (propertiesv2.PrivateLastIndex before)
  /\ propertiesv2.MasterLastIndex after
     = propertiesv2.MasterLastIndex before
  /\ propertiesv2.Masters after = propertiesv2.Masters before
  /\ (propertiesv2.PrivateNodes after = propertiesv2.PrivateNodes before
      \/ exists node,
           propertiesv2.PrivateNodes after
           = propertiesv2.PrivateNodes before ++ [node]).
Proof.
  intros before after. subst before after. unfold nodesV2Of.
  destruct (taskCreateNode clusterName facade Index NoKeep w)
    as [w' r] eqn:Hrun.
  cbn [fst]. unfold_task Hrun. rewrite Hsubnet in Hrun.
  destruct (Z.ltb_spec Index 1) as [Hlow|_]; [lia|].
  repeat break_match_in Hrun;
    injection Hrun as <- <-;
    repeat match goal with
           | H : (_, _) = (_, _) |- _ => injection H as <- <-
           | H : (_, _) = (_, _) |- _ => injection H as <-
           end;
    subst; try discriminate;
    try match goal with
        | H : registerHost _ _ _ _ = Ok _ |- _ =>
            apply registerHost_inv in H;
            destruct H as (Hid & Hname & Hnum & ->)
        end;
    cbn in *; repeat apply conj; auto using app_nil_r;
    try (left; reflexivity);
    try (right; eexists; rewrite ?app_nil_r; reflexivity).
Qed.

Lemma taskCreateNode_consumes_index_witness :
  propertiesv2.PrivateLastIndex
    (nodesV2Of (metadata (fst (taskCreateNode "c1" proxyCacheFails 1 true
                                              runningWorld))))
  = 4.
Proof.
  refine (proj1 (taskCreateNode_consumes_index
                   "c1" proxyCacheFails 1 true runningWorld _ eq_refl)).
  lia.
Defined.

(** X15.  The host a creation task has obtained stays at the provider when
    the task is told to keep it (NoKeep unset), for a node and for a master;
    and once a master is recorded in the metadata its task never deletes the
    host, even with NoKeep set and whatever fails afterwards. *)
Theorem created_host_is_kept (facade : Facade) (hostLabel : string)
    (rh : Host) (w : World) :
  provider (fst (nodeAfterCreate facade hostLabel false rh w)) = provider w
  /\ provider (fst (masterAfterCreate facade false rh w)) = provider w
  /\ (forall NoKeep registered node,
         registerHost facade true rh (nodesV2Of (metadata w))
         = Ok (registered, node) ->
         provider (fst (masterAfterCreate facade NoKeep rh w)) = provider w
         /\ mastersOf (fst (masterAfterCreate facade NoKeep rh w))
            = mastersOf w ++ [node]).
Proof.
  repeat apply conj.
  - destruct (nodeAfterCreate facade hostLabel false rh w) as [w' r] eqn:Hrun.
    unfold_task Hrun.
    repeat break_match_in Hrun; injection Hrun as <- <-;
      repeat match goal with
             | H : (_, _) = (_, _) |- _ => injection H as <- <-
             end; reflexivity.
  - destruct (masterAfterCreate facade false rh w) as [w' r] eqn:Hrun.
    unfold_task Hrun.
    repeat break_match_in Hrun; injection Hrun as <- <-;
      repeat match goal with
             | H : (_, _) = (_, _) |- _ => injection H as <- <-
             end; reflexivity.
  - intros NoKeep registered node Hrecorded.
    destruct (registerHost_inv _ _ _ _ _ _ Hrecorded) as (_ & _ & _ & Hreg).
    destruct (masterAfterCreate facade NoKeep rh w) as [w' r] eqn:Hrun.
    unfold_task Hrun. unfold nodesV2Of in Hrecorded.
    rewrite Hrecorded in Hrun. unfold mastersOf.
    repeat break_match_in Hrun; injection Hrun as <- <-;
      subst registered; split; reflexivity.
Qed.

(** ** Creating several nodes *)

Lemma taskCreateNode_reliable (clusterName : string) (facade : Facade)
    (Index : Z) (NoKeep : bool) (w : World) :
  reliable facade ->
  1 <= Index ->
  exists rh node,
    taskCreateNode clusterName facade Index NoKeep w
    = (mkWorld
         (setNodesV2 (metadata w)
            (propertiesv2.mkClusterNodes
               (mastersOf w) (privateNodesOf w ++ [node])
               (propertiesv2.MasterLastIndex (nodesV2Of (metadata w)))
               (int_incr
                  (propertiesv2.PrivateLastIndex (nodesV2Of (metadata w))))
               (uint_incr
                  (propertiesv2.GlobalLastIndex (nodesV2Of (metadata w))))))
         (GetID rh :: provider w),
       Ok rh)
    /\ propertiesv2.ID node = GetID rh
    /\ propertiesv2.NumericalID node
       = uint_incr (propertiesv2.GlobalLastIndex (nodesV2Of (metadata w))).
Proof.
  intros (Hsubnet & Hinspect & Hroute & Hnew & Hcreate & Hpublic & Hprivate
          & Hproxy & Hreqs) Hvalid.
  unfold taskCreateNode, nodeAfterCreate, deleteOnFailure, buildHostname,
    OnPanic, host_Create, bind, answer, raise, ret, c_Alter, core_Alter,
    alterNodesV2, Alter, nextIndex, registerHost.
  destruct (Z.ltb_spec Index 1); [lia|].
  rewrite Hsubnet, Hinspect, Hroute, Hnew. cbn [metadata provider].
  match goal with
  | |- context [Create facade ?name] =>
      destruct (Hcreate name) as (rh & ->)
  end.
  destruct (Hpublic rh) as (pubIP & ->).
  destruct (Hprivate rh) as (privIP & ->).
  cbn [metadata provider]. rewrite Hproxy, Hreqs.
  eexists rh, _. repeat apply conj; reflexivity.
Qed.

Lemma runSubtasks_taskCreateNode (clusterName : string) (facade : Facade)
    (NoKeep : bool) (idxs : list Z) :
  reliable facade ->
  Forall (fun i => 1 <= i) idxs ->
  forall w,
    0 <= propertiesv2.GlobalLastIndex (nodesV2Of (metadata w)) ->
    propertiesv2.GlobalLastIndex (nodesV2Of (metadata w)) + len idxs
    < 2 ^ 64 ->
    let run :=
      runSubtasks
        (map (fun i => taskCreateNode clusterName facade i NoKeep) idxs) w in
    errorsOf (snd run) = []
    /\ mastersOf (fst run) = mastersOf w
    /\ propertiesv2.GlobalLastIndex (nodesV2Of (metadata (fst run)))
       = propertiesv2.GlobalLastIndex (nodesV2Of (metadata w)) + len idxs
    /\ exists added,
         privateNodesOf (fst run) = privateNodesOf w ++ added
         /\ map propertiesv2.NumericalID added
            = countFrom
                (propertiesv2.GlobalLastIndex (nodesV2Of (metadata w)) + 1)
                (List.length idxs)
         /\ map propertiesv2.ID added = map GetID (valuesOf (snd run))
         /\ provider (fst run)
            = rev (map GetID (valuesOf (snd run))) ++ provider w.
Proof.
  intros Hreliable Hidxs.
  induction Hidxs as [|i rest Hi _ IH]; intros w Hg Hroom run; subst run.
  - cbn. unfold len. cbn. rewrite Z.add_0_r.
    repeat apply conj; auto. exists []. now rewrite app_nil_r.
  - rewrite len_cons in Hroom. pose proof (len_nonneg rest).
    cbn [map runSubtasks].
    destruct (taskCreateNode_reliable clusterName facade i NoKeep w
                                      Hreliable Hi)
      as (rh & node & -> & Hid & Hnum).
    rewrite uint_incr_small in * by lia.
    match goal with
    | |- context [runSubtasks _ ?w1] =>
        specialize (IH w1); set (w1' := w1) in *
    end.
    cbn zeta in IH.
    destruct (runSubtasks _ w1') as [w2 results] eqn:Hrest.
    subst w1'. cbn [fst snd metadata nodesV2Of] in *.
    unfold nodesV2Of, mastersOf, privateNodesOf in *.
    cbn [metadata Inspect NodesV2 setNodesV2 propertiesv2.GlobalLastIndex
         propertiesv2.Masters propertiesv2.PrivateNodes provider] in *.
    destruct IH as (Herr & Hmasters & Hglobal & added & Hnodes & Hnums
                    & Hids & Hprov); [lia | lia |].
    rewrite len_cons.
    repeat apply conj.
    + exact Herr.
    + exact Hmasters.
    + lia.
    + exists (node :: added). repeat apply conj.
      * now rewrite Hnodes, <- app_assoc.
      * cbn [map List.length countFrom]. now rewrite Hnum, Hnums.
      * cbn [map valuesOf flat_map app]. now rewrite Hid, Hids.
      * cbn [valuesOf flat_map app map rev]. rewrite Hprov.
        now rewrite <- app_assoc.
Qed.

Lemma indexes_valid (count : Z) : Forall (fun i => 1 <= i) (indexes count).
Proof.
  unfold indexes. apply Forall_forall. intros i Hin.
  apply in_map_iff in Hin. destruct Hin as (k & <- & _). lia.
Qed.

Lemma indexes_length (count : Z) :
  List.length (indexes count) = Z.to_nat count.
Proof. unfold indexes. now rewrite length_map, length_seq. Qed.

(** X16.  With a facade that never fails, [taskCreateNodes] asked for
    [Count] >= 1 nodes succeeds and appends exactly [Count] entries to
    privateNodes, numbered with the next [Count] values of the counter; the
    masters are left as they are and the provider holds [Count] more
    hosts. *)
Theorem taskCreateNodes_all_created (clusterName : string) (facade : Facade)
    (Count : Z) (NoKeep : bool) (w : World)
    (Hreliable : reliable facade)
    (Hcount : 1 <= Count)
    (Hg : 0 <= propertiesv2.GlobalLastIndex (nodesV2Of (metadata w)))
    (Hroom : propertiesv2.GlobalLastIndex (nodesV2Of (metadata w)) + Count
             < 2 ^ 64) :
  let run := taskCreateNodes clusterName facade Count NoKeep w in
  snd run = Ok tt
  /\ mastersOf (fst run) = mastersOf w
  /\ List.length (provider (fst run))
     = (Z.to_nat Count + List.length (provider w))%nat
  /\ exists added,
       privateNodesOf (fst run) = privateNodesOf w ++ added
       /\ List.length added = Z.to_nat Count
       /\ map propertiesv2.NumericalID added
          = countFrom
              (propertiesv2.GlobalLastIndex (nodesV2Of (metadata w)) + 1)
              (Z.to_nat Count).
Proof.
  intros run. subst run. unfold taskCreateNodes.
  destruct (Z.ltb_spec Count 1); [lia|].
  destruct (Z.eqb_spec Count 0); [lia|].
  pose proof (runSubtasks_taskCreateNode
                clusterName facade NoKeep (indexes Count) Hreliable
                (indexes_valid Count) w Hg) as Hrun.
  cbn zeta in Hrun.
  destruct (runSubtasks _ w) as [w' results]. cbn [fst snd] in Hrun.
  destruct Hrun as (Herr & Hmasters & _ & added & Hnodes & Hnums & Hids
                    & Hprov).
  { unfold len. rewrite indexes_length. lia. }
  rewrite Herr. cbn [fst snd]. rewrite indexes_length in Hnums.
  repeat apply conj; auto.
  - rewrite Hprov, length_app, length_rev, <- Hids, length_map.
    apply (f_equal (@List.length Z)) in Hnums.
    rewrite length_map in Hnums. rewrite Hnums. f_equal.
    clear. generalize (propertiesv2.GlobalLastIndex
                         (nodesV2Of (metadata w)) + 1).
    induction (Z.to_nat Count) as [|n IH]; intros first; cbn; auto.
  - exists added. repeat apply conj; auto.
    apply (f_equal (@List.length Z)) in Hnums.
    rewrite length_map in Hnums. rewrite Hnums.
    clear. generalize (propertiesv2.GlobalLastIndex
                         (nodesV2Of (metadata w)) + 1).
    induction (Z.to_nat Count) as [|n IH]; intros first; cbn; auto.
Qed.

Lemma okFacade_reliable : reliable okFacade.
Proof.
  repeat apply conj; try reflexivity; intros; eexists; reflexivity.
Qed.

Lemma taskCreateNodes_all_created_witness :
  snd (taskCreateNodes "c1" okFacade 2 true runningWorld) = Ok tt.
Proof.
  refine (proj1 (taskCreateNodes_all_created
                   "c1" okFacade 2 true runningWorld okFacade_reliable
                   _ _ _)).
  - lia.
  - cbn. lia.
  - vm_compute. reflexivity.
Defined.

(** ** Adding nodes *)

Lemma taskCreateNode_appends (clusterName : string) (facade : Facade)
    (Index : Z) (NoKeep : bool) (w : World) :
  exists added,
    privateNodesOf (fst (taskCreateNode clusterName facade Index NoKeep w))
    = privateNodesOf w ++ added
    /\ forall rh,
         snd (taskCreateNode clusterName facade Index NoKeep w) = Ok rh ->
         exists node, In node added /\ propertiesv2.ID node = GetID rh.
Proof.
  destruct (taskCreateNode clusterName facade Index NoKeep w)
    as [w' r] eqn:Hrun.
  cbn [fst snd]. unfold privateNodesOf. unfold_task Hrun.
  repeat break_match_in Hrun;
    injection Hrun as <- <-;
    repeat match goal with
           | H : (_, _) = (_, _) |- _ => injection H as <- <-
           | H : (_, _) = (_, _) |- _ => injection H as <-
           end;
    subst; try discriminate;
    try match goal with
        | H : registerHost _ _ _ _ = Ok _ |- _ =>
            apply registerHost_inv in H;
            destruct H as (Hid & Hname & Hnum & ->)
        end;
    cbn in *;
    try (exists []; split; [now rewrite app_nil_r | discriminate]).
  all: match goal with
       | n : propertiesv2.ClusterNode |- _ => exists [n]
       end.
  all: split; [reflexivity|].
  all: intros rh' Hrh; try discriminate.
  all: injection Hrh as <-; eexists; split; [left; reflexivity | assumption].
Qed.

Lemma runSubtasks_taskCreateNode_records (clusterName : string)
    (facade : Facade) (NoKeep : bool) (idxs : list Z) (w : World) :
  let run :=
    runSubtasks
      (map (fun i => taskCreateNode clusterName facade i NoKeep) idxs) w in
  exists added,
    privateNodesOf (fst run) = privateNodesOf w ++ added
    /\ forall rh,
         In rh (valuesOf (snd run)) ->
         exists node, In node added /\ propertiesv2.ID node = GetID rh.
Proof.
  cbn zeta. revert w.
  induction idxs as [|i rest IH]; intros w.
  - exists []. cbn. split; [now rewrite app_nil_r | contradiction].
  - cbn [map runSubtasks].
    destruct (taskCreateNode_appends clusterName facade i NoKeep w)
      as (added1 & Hnodes1 & Hrec1).
    destruct (taskCreateNode clusterName facade i NoKeep w) as [w1 r].
    cbn [fst snd] in *.
    destruct (IH w1) as (added2 & Hnodes2 & Hrec2).
    destruct (runSubtasks _ w1) as [w2 results]. cbn [fst snd] in *.
    exists (added1 ++ added2). split.
    + now rewrite Hnodes2, Hnodes1, app_assoc.
    + intros rh Hin. cbn [valuesOf flat_map] in Hin.
      apply in_app_or in Hin. destruct Hin as [Hin|Hin].
      * destruct r as [rh'| |]; cbn in Hin; try contradiction.
        destruct Hin as [<-|[]].
        destruct (Hrec1 rh' eq_refl) as (node & Hnode & Hid).
        exists node. split; [apply in_or_app; now left | assumption].
      * destruct (Hrec2 rh Hin) as (node & Hnode & Hid).
        exists node. split; [apply in_or_app; now right | assumption].
Qed.

Lemma runSubtasks_keeps_world {A} (subtasks : list (Op A)) (w : World) :
  Forall (fun t => forall w, fst (t w) = w) subtasks ->
  fst (runSubtasks subtasks w) = w.
Proof.
  intros Hall. revert w.
  induction Hall as [|t rest Ht _ IH]; intros w; [reflexivity|].
  cbn [runSubtasks]. specialize (Ht w). destruct (t w) as [w1 r].
  specialize (IH w1). destruct (runSubtasks rest w1) as [w2 rs].
  cbn [fst] in *. congruence.
Qed.

Lemma taskConfigureNode_keeps_world (makers : Makers) (facade : Facade)
    (Index : Z) (host : Host) (w : World) :
  fst (taskConfigureNode makers facade Index host w) = w.
Proof.
  unfold taskConfigureNode, bind, answer, raise, ret, callHook.
  destruct (Index <? 1); [reflexivity|].
  destruct (installDocker facade host); [reflexivity|].
  destruct (negb (Lookup (ConfigureNode makers))); reflexivity.
Qed.

Lemma configureNodesFromList_keeps_world (makers : Makers)
    (facade : Facade) (hosts : list Host) (w : World) :
  fst (configureNodesFromList makers facade hosts w) = w.
Proof.
  unfold configureNodesFromList.
  match goal with
  | |- context [runSubtasks ?tasks w] =>
      pose proof (runSubtasks_keeps_world tasks w) as Hworld;
      destruct (runSubtasks tasks w) as [w1 results]
  end.
  cbn [fst] in Hworld. rewrite Hworld.
  - destruct (anyPanic results); [reflexivity|].
    destruct (errorsOf results); reflexivity.
  - apply Forall_forall. intros t Hin. apply in_map_iff in Hin.
    destruct Hin as (ih & <- & _). intros w'.
    apply taskConfigureNode_keeps_world.
Qed.

Lemma joinEach_keeps_world (makers : Makers) (hosts : list Host) (w : World) :
  fst (joinEach makers hosts w) = w.
Proof.
  induction hosts as [|host rest IH]; [reflexivity|].
  cbn [joinEach]. unfold bind, callHook.
  destruct (invoke _ _); try reflexivity. exact IH.
Qed.

Lemma joinNodesFromList_keeps_world (makers : Makers) (hosts : list Host)
    (w : World) :
  fst (joinNodesFromList makers hosts w) = w.
Proof.
  unfold joinNodesFromList.
  destruct (negb _ && _); [reflexivity|].
  destruct (Lookup _); [apply joinEach_keeps_world | reflexivity].
Qed.

Lemma runSubtasks_host_Delete (facade : Facade) (hosts : list Host)
    (w : World) :
  let w' := fst (runSubtasks (map (host_Delete facade) hosts) w) in
  metadata w' = metadata w
  /\ (forall id, In id (provider w') -> In id (provider w))
  /\ (forall rh,
         In rh hosts -> Delete facade rh = None ->
         ~ In (GetID rh) (provider w')).
Proof.
  cbn zeta. revert w.
  induction hosts as [|host rest IH]; intros w.
  - cbn. repeat apply conj; auto.
  - cbn [map runSubtasks].
    destruct (host_Delete facade host w) as [w1 r] eqn:Hdelete.
    assert (Hstep :
              metadata w1 = metadata w
              /\ (forall id, In id (provider w1) -> In id (provider w))
              /\ (Delete facade host = None
                  -> ~ In (GetID host) (provider w1))).
    { unfold host_Delete in Hdelete.
      destruct (Delete facade host); injection Hdelete as <- <-;
        cbn [metadata provider]; repeat apply conj; auto; try discriminate.
      - intros id Hin. now apply in_remove in Hin.
      - intros _ Hin. now apply remove_In in Hin. }
    destruct Hstep as (Hmeta1 & Hincl1 & Hgone1).
    specialize (IH w1).
    destruct (runSubtasks _ w1) as [w2 results]. cbn [fst] in *.
    destruct IH as (Hmeta & Hincl & Hgone).
    repeat apply conj.
    + congruence.
    + auto.
    + intros rh [<-|Hin] Hnone; [|now apply Hgone].
      intros Hstill. now apply Hgone1; [|apply Hincl].
Qed.

(** X17.  When [AddNodes] fails, every host its creation subtasks returned
    is asked to be deleted, and is gone from the provider when that deletion
    succeeds; but the record of each of these hosts stays in privateNodes:
    the clean-up of [AddNodes] does not touch the metadata. *)
Theorem AddNodes_failure_keeps_records (clusterName : string)
    (makers : Makers) (facade : Facade) (count : Z) (w : World)
    (e : Error) (rh : Host)
    (Hfailed : snd (AddNodes clusterName makers facade count w) = Failed e)
    (Hcreated :
       In rh (valuesOf
                (snd (runSubtasks
                        (map (fun i =>
                                taskCreateNode clusterName facade i false)
                             (indexes count)) w)))) :
  let w' := fst (AddNodes clusterName makers facade count w) in
  (exists node,
      In node (privateNodesOf w') /\ propertiesv2.ID node = GetID rh)
  /\ (Delete facade rh = None -> ~ In (GetID rh) (provider w')).
Proof.
  cbn zeta. revert Hfailed. unfold AddNodes.
  destruct (Z.eqb_spec count 0) as [->|Hcount]; [contradiction|].
  destruct (runSubtasks_taskCreateNode_records
              clusterName facade false (indexes count) w)
    as (added & Hnodes & Hrecords).
  destruct (runSubtasks _ w) as [w1 results]. cbn [fst snd] in *.
  destruct (Hrecords rh Hcreated) as (node & Hnode & Hid).
  assert (Hbody :
            forall body : Op (list Host),
              (forall w0, fst (body w0) = w0) ->
              snd (match body w1 with
                   | (w2, Failed xerr) =>
                       match valuesOf results with
                       | [] => (w2, Failed xerr)
                       | _ :: _ =>
                           match deleteHosts facade (valuesOf results) w2 with
                           | (w3, Failed derr) =>
                               (w3, Failed (AddConsequence xerr derr))
                           | (w3, _) => (w3, Failed xerr)
                           end
                       end
                   | r => r
                   end) = Failed e ->
              let w' :=
                fst (match body w1 with
                     | (w2, Failed xerr) =>
                         match valuesOf results with
                         | [] => (w2, Failed xerr)
                         | _ :: _ =>
                             match deleteHosts facade (valuesOf results) w2
                             with
                             | (w3, Failed derr) =>
                                 (w3, Failed (AddConsequence xerr derr))
                             | (w3, _) => (w3, Failed xerr)
                             end
                         end
                     | r => r
                     end) in
              (exists node,
                  In node (privateNodesOf w')
                  /\ propertiesv2.ID node = GetID rh)
              /\ (Delete facade rh = None -> ~ In (GetID rh) (provider w'))).
  { intros body Hworld. specialize (Hworld w1).
    destruct (body w1) as [w2 [hosts|xerr|]]; cbn [fst snd] in *;
      try discriminate.
    subst w2.
    destruct (valuesOf results) as [|host hosts] eqn:Hvalues;
      [contradiction|].
    rewrite <- Hvalues in *. unfold deleteHosts.
    pose proof (runSubtasks_host_Delete facade (valuesOf results) w1)
      as Hdeleted.
    cbn zeta in Hdeleted.
    destruct (runSubtasks (map (host_Delete facade) (valuesOf results)) w1)
      as [w3 deletions].
    cbn [fst] in Hdeleted. destruct Hdeleted as (Hmeta & _ & Hgone).
    intros _.
    assert (Hkept : privateNodesOf w3 = privateNodesOf w1)
      by (unfold privateNodesOf; now rewrite Hmeta).
    destruct (errorsOf deletions); cbn [fst]; (split;
      [ exists node; split;
        [rewrite Hkept, Hnodes; apply in_or_app; now right | exact Hid]
      | intros Hnone; now apply Hgone ]). }
  destruct (errorsOf results) as [|err errs].
  - apply Hbody. intros w0. unfold bind, ret.
    pose proof (configureNodesFromList_keeps_world
                  makers facade (valuesOf results) w0) as Hconf.
    destruct (configureNodesFromList _ _ _ w0) as [wa [[]| |]];
      cbn [fst] in *; subst; auto.
    pose proof (joinNodesFromList_keeps_world
                  makers (valuesOf results) w0) as Hjoin.
    destruct (joinNodesFromList _ _ w0) as [wb [[]| |]];
      cbn [fst] in *; subst; auto.
  - apply Hbody. intros w0. reflexivity.
Qed.

Lemma AddNodes_failure_keeps_records_witness :
  In node3 (privateNodesOf (fst (AddNodes "c1" noMakers dockerFails 1
                                          runningWorld)))
  /\ (exists node,
         In node (privateNodesOf (fst (AddNodes "c1" noMakers dockerFails 1
                                                runningWorld)))
         /\ propertiesv2.ID node = "id-c1-node-4")
  /\ ~ In "id-c1-node-4"
          (provider (fst (AddNodes "c1" noMakers dockerFails 1
                                   runningWorld))).
Proof.
  split; [vm_compute; auto|].
  refine ((fun H => conj (proj1 H) (proj2 H eq_refl))
            (AddNodes_failure_keeps_records
               "c1" noMakers dockerFails 1 runningWorld
               (NewErrorList [NewError "failed to install docker"])
               (mkHost "id-c1-node-4" "c1-node-4") _ _)).
  - vm_compute. reflexivity.
  - vm_compute. auto.
Defined.
